(** * freqtrade protections: the [IProtection] base class

    A shallow embedding of [freqtrade/plugins/protections/iprotection.py]
    and of the part of Python's [datetime] module it relies on, followed by
    the properties of the stop-duration, unlock-time and lock-end
    computations.

    Conventions of the embedding:
    - Python [int] is [Z]; [dict] with string keys is [gmap string pyval].
    - A call that may raise returns a [result]; methods of the instance run
      in the monad [M], which threads the object store and keeps the store
      reached when an exception escapes.
    - A [datetime] keeps its calendar fields, as CPython does, so that
      [replace] validates the day against the month.
    - [timedelta.total_seconds() / 60] is binary64 arithmetic in Python; it
      is taken here over exact microsecond counts. *)

From stdpp Require Import base gmap strings pretty list.
From Stdlib Require Import ZArith Lia Ascii String.

Open Scope Z_scope.

(** ** Exceptions and fallible results *)

Inductive exn : Type :=
  | KeyError
  | ValueError
  | TypeError
  | OverflowError
  | AttributeError
  | ExternalError.

Inductive result (A : Type) : Type :=
  | Ok (a : A)
  | Raise (e : exn).
Arguments Ok {A} a.
Arguments Raise {A} e.


Definition raises {A} (r : result A) : Prop :=
  match r with Ok _ => False | Raise _ => True end.

#[global] Instance result_ret : MRet result := fun _ a => Ok a.
#[global] Instance result_bind : MBind result := fun _ _ f r =>
  match r with Ok a => f a | Raise e => Raise e end.

(** ** Python values stored in the configuration mappings *)

Inductive pyval : Type :=
  | PyNone
  | PyInt (n : Z)
  | PyStr (s : string).

(** [str(v)] *)
Definition py_str (v : pyval) : string :=
  match v with
  | PyNone => "None"
  | PyInt n => pretty n
  | PyStr s => s
  end.

(** ** The proleptic Gregorian calendar of [datetime] *)

Module Calendar.

Definition MINYEAR : Z := 1.
Definition MAXYEAR : Z := 9999.
Definition _MAXORDINAL : Z := 3652059.

Definition _is_leap (year : Z) : bool :=
  (year mod 4 =? 0) && (negb (year mod 100 =? 0) || (year mod 400 =? 0)).

Definition _DAYS_IN_MONTH (month : Z) : Z :=
  match month with
  | 1 => 31 | 2 => 28 | 3 => 31 | 4 => 30 | 5 => 31 | 6 => 30
  | 7 => 31 | 8 => 31 | 9 => 30 | 10 => 31 | 11 => 30 | 12 => 31
  | _ => -1
  end.

Definition _DAYS_BEFORE_MONTH (month : Z) : Z :=
  match month with
  | 1 => 0 | 2 => 31 | 3 => 59 | 4 => 90 | 5 => 120 | 6 => 151
  | 7 => 181 | 8 => 212 | 9 => 243 | 10 => 273 | 11 => 304 | 12 => 334
  | _ => -1
  end.

Definition _days_before_year (year : Z) : Z :=
  let y := year - 1 in y * 365 + y / 4 - y / 100 + y / 400.

Definition _days_in_month (year month : Z) : Z :=
  if (month =? 2) && _is_leap year then 29 else _DAYS_IN_MONTH month.

Definition _days_before_month (year month : Z) : Z :=
  _DAYS_BEFORE_MONTH month + (if (2 <? month) && _is_leap year then 1 else 0).

Definition _ymd2ord (year month day : Z) : Z :=
  _days_before_year year + _days_before_month year month + day.

Definition _DI400Y : Z := 146097.
Definition _DI100Y : Z := 36524.
Definition _DI4Y : Z := 1461.

(** Month and day of the [n]-th day (from 0) of a year: an estimate of
    the month that is exact or one too large, then the correction. *)
Definition month_of_yday (leapyear : bool) (n : Z) : Z * Z :=
  let month := Z.shiftr (n + 50) 5 in
  let preceding :=
    _DAYS_BEFORE_MONTH month + (if (2 <? month) && leapyear then 1 else 0) in
  if n <? preceding then
    let month := month - 1 in
    let preceding :=
      preceding
      - (_DAYS_IN_MONTH month + (if (month =? 2) && leapyear then 1 else 0)) in
    (month, n - preceding + 1)
  else (month, n - preceding + 1).

(** ordinal -> (year, month, day), with January 1 of year 1 as day 1 *)
Definition _ord2ymd (n : Z) : Z * Z * Z :=
  let n := n - 1 in
  let n400 := n / _DI400Y in
  let n := n mod _DI400Y in
  let year := n400 * 400 + 1 in
  let n100 := n / _DI100Y in
  let n := n mod _DI100Y in
  let n4 := n / _DI4Y in
  let n := n mod _DI4Y in
  let n1 := n / 365 in
  let n := n mod 365 in
  let year := year + n100 * 100 + n4 * 4 + n1 in
  if (n1 =? 4) || (n100 =? 4) then (year - 1, 12, 31)
  else
    let leapyear := (n1 =? 3) && (negb (n4 =? 24) || (n100 =? 3)) in
    let '(month, day) := month_of_yday leapyear n in
    (year, month, day).

(** What [month_of_yday] has to deliver, as a check that runs. *)
Definition yday_ok (leap : bool) (n : Z) : bool :=
  let '(m, d) := month_of_yday leap n in
  (1 <=? m) && (m <=? 12) && (1 <=? d)
  && (d <=? _DAYS_IN_MONTH m + (if (m =? 2) && leap then 1 else 0))
  && (_DAYS_BEFORE_MONTH m + (if (2 <? m) && leap then 1 else 0) + d =? n + 1).

Definition check_date_fields (year month day : Z) : bool :=
  (MINYEAR <=? year) && (year <=? MAXYEAR)
  && (1 <=? month) && (month <=? 12)
  && (1 <=? day) && (day <=? _days_in_month year month).

Definition check_time_fields (hour minute second microsecond : Z) : bool :=
  (0 <=? hour) && (hour <=? 23)
  && (0 <=? minute) && (minute <=? 59)
  && (0 <=? second) && (second <=? 59)
  && (0 <=? microsecond) && (microsecond <=? 999999).

End Calendar.
Import Calendar.

(** ** [timezone], [time], [timedelta] and [datetime] *)

(** A fixed-offset [timezone]; the offset is kept in microseconds. *)
Record timezone : Type := FixedOffset { utcoffset : Z }.

Definition utc : timezone := FixedOffset 0.

Record time : Type := mkTime {
  t_hour : Z;
  t_minute : Z;
  t_second : Z;
  t_microsecond : Z
}.

(** [a < b] on naive [time] objects: field by field, as tuples compare. *)
Definition time_lt (a b : time) : bool :=
  if t_hour a <? t_hour b then true
  else if t_hour b <? t_hour a then false
  else if t_minute a <? t_minute b then true
  else if t_minute b <? t_minute a then false
  else if t_second a <? t_second b then true
  else if t_second b <? t_second a then false
  else t_microsecond a <? t_microsecond b.

(** A [timedelta], as its total number of microseconds. *)
Record timedelta : Type := mkDelta { total_microseconds : Z }.

Definition US_PER_SECOND : Z := 1000000.
Definition US_PER_MINUTE : Z := 60 * US_PER_SECOND.
Definition US_PER_DAY : Z := 86400 * US_PER_SECOND.
Definition MAX_DELTA_DAYS : Z := 999999999.

(** The constructor normalises to (days, seconds, microseconds) and rejects
    a day count beyond nine decimal digits. *)
Definition timedelta_of_us (us : Z) : result timedelta :=
  let days := us / US_PER_DAY in
  if (- MAX_DELTA_DAYS <=? days) && (days <=? MAX_DELTA_DAYS)
  then Ok (mkDelta us) else Raise OverflowError.

(** [timedelta(minutes=m)] *)
Definition timedelta_minutes (m : Z) : result timedelta :=
  timedelta_of_us (m * US_PER_MINUTE).

Record datetime : Type := mkDatetime {
  year : Z;
  month : Z;
  day : Z;
  hour : Z;
  minute : Z;
  second : Z;
  microsecond : Z;
  tzinfo : option timezone
}.

(** The class invariant every [datetime] object satisfies. *)
Definition valid_datetime (d : datetime) : bool :=
  check_date_fields (year d) (month d) (day d)
  && check_time_fields (hour d) (minute d) (second d) (microsecond d).

(** The constructor: [ValueError] on a field out of range. *)
Definition datetime_new (y mo d h mi s us : Z) (tz : option timezone)
  : result datetime :=
  if check_date_fields y mo d && check_time_fields h mi s us
  then Ok (mkDatetime y mo d h mi s us tz)
  else Raise ValueError.

(** [dt.replace(day=d, year=y, month=mo)] *)
Definition replace_date (dt : datetime) (y mo d : Z) : result datetime :=
  datetime_new y mo d (hour dt) (minute dt) (second dt) (microsecond dt) (tzinfo dt).

(** [dt.replace(day=d)] *)
Definition replace_day (dt : datetime) (d : Z) : result datetime :=
  datetime_new (year dt) (month dt) d
               (hour dt) (minute dt) (second dt) (microsecond dt) (tzinfo dt).

(** [dt.replace(tzinfo=tz)] *)
Definition replace_tzinfo (dt : datetime) (tz : option timezone) : result datetime :=
  datetime_new (year dt) (month dt) (day dt)
               (hour dt) (minute dt) (second dt) (microsecond dt) tz.

(** [dt.time()]: the wall-clock time, without the zone. *)
Definition time_of (dt : datetime) : time :=
  mkTime (hour dt) (minute dt) (second dt) (microsecond dt).

Definition toordinal (dt : datetime) : Z := _ymd2ord (year dt) (month dt) (day dt).

(** Microseconds of the wall-clock reading since the start of ordinal day 0. *)
Definition local_us (dt : datetime) : Z :=
  toordinal dt * US_PER_DAY
  + hour dt * (3600 * US_PER_SECOND)
  + minute dt * US_PER_MINUTE
  + second dt * US_PER_SECOND
  + microsecond dt.

(** The instant a zoned datetime denotes; for a zoneless one, its reading. *)
Definition instant (dt : datetime) : Z :=
  match tzinfo dt with
  | Some tz => local_us dt - utcoffset tz
  | None => local_us dt
  end.

Definition same_awareness (a b : datetime) : bool :=
  match tzinfo a, tzinfo b with
  | Some _, Some _ | None, None => true
  | _, _ => false
  end.

(** [a > b]; comparing a zoneless with a zoned datetime is a [TypeError]. *)
Definition datetime_gt (a b : datetime) : result bool :=
  if same_awareness a b then Ok (instant b <? instant a) else Raise TypeError.

(** [a - b]; mixing zoneless and zoned operands is a [TypeError]. *)
Definition datetime_sub (a b : datetime) : result timedelta :=
  if same_awareness a b then Ok (mkDelta (instant a - instant b))
  else Raise TypeError.

(** [dt + delta]: through the ordinal, keeping the zone of [dt]. *)
Definition datetime_add (dt : datetime) (delta : timedelta) : result datetime :=
  let total := local_us dt + total_microseconds delta in
  let days := total / US_PER_DAY in
  let rem := total mod US_PER_DAY in
  if (0 <? days) && (days <=? _MAXORDINAL) then
    let '(y, mo, d) := _ord2ymd days in
    let secs := rem / US_PER_SECOND in
    Ok (mkDatetime y mo d
          (secs / 3600) ((secs mod 3600) / 60) (secs mod 60)
          (rem mod US_PER_SECOND) (tzinfo dt))
  else Raise OverflowError.

(** [max(xs)] over datetimes: the first greatest element; an empty argument
    is a [ValueError]. *)
Fixpoint max_from (cur : datetime) (xs : list datetime) : result datetime :=
  match xs with
  | [] => Ok cur
  | x :: rest =>
      b ← datetime_gt x cur;
      max_from (if b : bool then x else cur) rest
  end.

Definition py_max (xs : list datetime) : result datetime :=
  match xs with
  | [] => Raise ValueError
  | x :: rest => max_from x rest
  end.

(** *** [datetime.strptime(s, "%H:%M")]

    The format compiles to the regular expression
    [(2[0-3]|[0-1]\d|\d):([0-5]\d|\d)], matched at the start of the input;
    input left over after the match is an error.  Missing fields default to
    1900-01-01 00:00:00, without zone. *)

Definition digit (c : ascii) : option Z :=
  let n := Z.of_nat (nat_of_ascii c) in
  if (48 <=? n) && (n <=? 57) then Some (n - 48) else None.

Definition digit_in (lo hi : Z) (c : ascii) : option Z :=
  match digit c with
  | Some d => if (lo <=? d) && (d <=? hi) then Some d else None
  | None => None
  end.

(** The alternatives of a two-branch-or-more group, in priority order:
    each is the value read and the input that remains. *)
Definition two_digits (lo1 hi1 lo2 hi2 : Z) (s : string) : list (Z * string) :=
  match s with
  | String c1 (String c2 rest) =>
      match digit_in lo1 hi1 c1, digit_in lo2 hi2 c2 with
      | Some a, Some b => [(10 * a + b, rest)]
      | _, _ => []
      end
  | _ => []
  end.

Definition one_digit (s : string) : list (Z * string) :=
  match s with
  | String c rest =>
      match digit c with Some a => [(a, rest)] | None => [] end
  | EmptyString => []
  end.

Definition re_H (s : string) : list (Z * string) :=
  two_digits 2 2 0 3 s ++ two_digits 0 1 0 9 s ++ one_digit s.

Definition re_M (s : string) : list (Z * string) :=
  two_digits 0 5 0 9 s ++ one_digit s.

Definition colon : ascii := ":"%char.

(** The first way, in priority order, of matching the whole expression. *)
Fixpoint first_match (hs : list (Z * string)) : option (Z * Z * string) :=
  match hs with
  | [] => None
  | (h, String c rest) :: hs' =>
      if Ascii.eqb c colon then
        match re_M rest with
        | (m, rest') :: _ => Some (h, m, rest')
        | [] => first_match hs'
        end
      else first_match hs'
  | (_, EmptyString) :: hs' => first_match hs'
  end.

Definition strptime_HM (s : string) : result datetime :=
  match first_match (re_H s) with
  | Some (h, m, EmptyString) => datetime_new 1900 1 1 h m 0 0 None
  | Some (_, _, String _ _) => Raise ValueError
  | None => Raise ValueError
  end.

(** [strftime("%H:%M")] *)
Definition pad2 (n : Z) : string :=
  if n <? 10 then "0" +:+ pretty n else pretty n.

Definition strftime_HM (dt : datetime) : string :=
  pad2 (hour dt) +:+ ":" +:+ pad2 (minute dt).

(** ** Trades *)

(** Of a [LocalTrade], only the close date is read here. *)
Record LocalTrade : Type := mkTrade { close_date : option datetime }.

(** ** [ProtectionReturn] and the abstract contract *)

Inductive LongShort : Type := long | short.

Record ProtectionReturn : Type := mkProtectionReturn {
  lock : bool;
  until : datetime;
  reason : option string;
  lock_side : string
}.

(** The dataclass default [lock_side = "*"]. *)
Definition ProtectionReturn_new (lock : bool) (until : datetime)
    (reason : option string) : ProtectionReturn :=
  mkProtectionReturn lock until reason "*".

(** What a concrete protection supplies: the two class flags and the three
    abstract methods. *)
Class Protection (S : Type) : Type := {
  has_global_stop : bool;
  has_local_stop : bool;
  short_desc : S -> string;
  global_stop : S -> datetime -> LongShort -> option ProtectionReturn;
  stop_per_pair : S -> string -> datetime -> LongShort -> option ProtectionReturn
}.

(** ** The object store *)

Inductive log_level : Type := DEBUG | INFO | WARNING | ERROR.

(** The attributes of an [IProtection] instance.  For [_stop_duration] and
    [_lookback_period], [None] stands for an attribute not bound yet; for the
    other three it is Python's [None]. *)
Record IProtection : Type := mkIProtection {
  _stop_duration_candles : option Z;
  _lookback_period_candles : option Z;
  unlock_at : option datetime;
  _stop_duration : option Z;
  _lookback_period : option Z;
  class_name : string;
  logging_ready : bool
}.

(** The store a method runs in.  [w_config] and [w_protection_config] are the
    two mappings handed to the constructor; [self._config] and
    [self._protection_config] are references to these very objects.
    [w_clock] is the wall clock in UTC, [w_log] what the module logger
    received. *)
Record world : Type := mkWorld {
  w_config : gmap string pyval;
  w_protection_config : gmap string pyval;
  w_self : IProtection;
  w_clock : datetime;
  w_log : list (log_level * string)
}.

Definition with_self (f : IProtection -> IProtection) (w : world) : world :=
  mkWorld (w_config w) (w_protection_config w) (f (w_self w)) (w_clock w) (w_log w).

Definition with_log (f : list (log_level * string) -> list (log_level * string))
    (w : world) : world :=
  mkWorld (w_config w) (w_protection_config w) (w_self w) (w_clock w) (f (w_log w)).

Definition set__stop_duration_candles (v : option Z) (o : IProtection) : IProtection :=
  mkIProtection v (_lookback_period_candles o) (unlock_at o) (_stop_duration o)
                (_lookback_period o) (class_name o) (logging_ready o).

Definition set__lookback_period_candles (v : option Z) (o : IProtection) : IProtection :=
  mkIProtection (_stop_duration_candles o) v (unlock_at o) (_stop_duration o)
                (_lookback_period o) (class_name o) (logging_ready o).

Definition set_unlock_at (v : option datetime) (o : IProtection) : IProtection :=
  mkIProtection (_stop_duration_candles o) (_lookback_period_candles o) v
                (_stop_duration o) (_lookback_period o) (class_name o) (logging_ready o).

Definition set__stop_duration (v : Z) (o : IProtection) : IProtection :=
  mkIProtection (_stop_duration_candles o) (_lookback_period_candles o) (unlock_at o)
                (Some v) (_lookback_period o) (class_name o) (logging_ready o).

Definition set__lookback_period (v : Z) (o : IProtection) : IProtection :=
  mkIProtection (_stop_duration_candles o) (_lookback_period_candles o) (unlock_at o)
                (_stop_duration o) (Some v) (class_name o) (logging_ready o).

Definition set_logging_ready (o : IProtection) : IProtection :=
  mkIProtection (_stop_duration_candles o) (_lookback_period_candles o) (unlock_at o)
                (_stop_duration o) (_lookback_period o) (class_name o) true.

(** ** The monad of methods: store passing with exceptions *)

Definition M (A : Type) : Type := world -> result A * world.

#[global] Instance M_ret : MRet M := fun _ a w => (Ok a, w).
#[global] Instance M_bind : MBind M := fun _ _ f m w =>
  match m w with
  | (Ok a, w') => f a w'
  | (Raise e, w') => (Raise e, w')
  end.

Definition lift {A} (r : result A) : M A := fun w => (r, w).
Definition read {A} (f : world -> A) : M A := fun w => (Ok (f w), w).
Definition assign (f : IProtection -> IProtection) : M unit :=
  fun w => (Ok tt, with_self f w).

(** Reading an attribute that may not be bound yet. *)
Definition getattr (f : IProtection -> option Z) : M Z :=
  fun w => match f (w_self w) with
           | Some v => (Ok v, w)
           | None => (Raise AttributeError, w)
           end.

(** [logger.warning(msg)] *)
Definition logger_warning (msg : string) : M unit :=
  fun w => (Ok tt, with_log (fun l => l ++ [(WARNING, msg)]) w).

(** [datetime.now(timezone.utc)]: the reading goes through the [datetime]
    constructor, so what a method receives satisfies the class invariant. *)
Definition datetime_now_utc : M datetime :=
  fun w => (replace_tzinfo (w_clock w) (Some utc), w).

(** [d[k]], [k in d] and [d.get(k, default)] on a mapping *)
Definition dict_getitem (d : gmap string pyval) (k : string) : result pyval :=
  match d !! k with Some v => Ok v | None => Raise KeyError end.

Definition dict_contains (d : gmap string pyval) (k : string) : bool :=
  bool_decide (is_Some (d !! k)).

Definition dict_get (d : gmap string pyval) (k : string) (dflt : pyval) : pyval :=
  match d !! k with Some v => v | None => dflt end.

(** ** The static helpers *)

(** [int((end_time - start_time).total_seconds() / 60)]: [int] truncates
    toward zero, which on exact quotients is [Z.quot].  The rounding of the
    two binary64 divisions is not part of the model. *)
Definition calculate_timespan (start_time end_time : datetime) : result Z :=
  delta ← datetime_sub end_time start_time;
  mret (Z.quot (total_microseconds delta) US_PER_MINUTE).

(** [[trade.close_date for trade in trades if trade.close_date]]: a datetime
    is always truthy, so the filter keeps the dates that are not [None]. *)
Definition closed_dates (trades : list LocalTrade) : list datetime :=
  omap close_date trades.

Definition calculate_lock_end (trades : list LocalTrade) (stop_minutes : Z)
  : result datetime :=
  max_date ← py_max (closed_dates trades);
  max_date ← match tzinfo max_date with
             | None => replace_tzinfo max_date (Some utc)
             | Some _ => Ok max_date
             end;
  delta ← timedelta_minutes stop_minutes;
  datetime_add max_date delta.

(** ** Collaborators used in the worked examples *)

(** A timeframe table with three entries, standing in for the exchange
    utility in examples. *)
Definition sample_timeframe_to_minutes (v : pyval) : result Z :=
  match v with
  | PyStr s =>
      if String.eqb s "1m" then Ok 1
      else if String.eqb s "5m" then Ok 5
      else if String.eqb s "1h" then Ok 60
      else Raise ExternalError
  | _ => Raise ExternalError
  end.

(** An [int(str)] that accepts nothing, for examples whose configuration
    holds no numeral strings. *)
Definition sample_int_of_str (s : string) : result Z := Raise ValueError.

(** A pluralisation helper for examples: singular exactly for a count of one. *)
Definition sample_plural (num : Z) (singular plural_ : string) : string :=
  if num =? 1 then singular else plural_.

(** ** The class *)

Definition NO_UNLOCK_AT_MSG : string :=
  "Couldn't update the stop duration, because unlock_at is not set in the protection config.".

Section Protection.

(** [freqtrade.exchange.timeframe_to_minutes], [int] on a string and
    [freqtrade.misc.plural] are defined outside this module. *)
Variable timeframe_to_minutes : pyval -> result Z.
Variable int_of_str : string -> result Z.
Variable plural : Z -> string -> string -> string.

(** [int(v)] *)
Definition py_int (v : pyval) : result Z :=
  match v with
  | PyInt n => Ok n
  | PyStr s => int_of_str s
  | PyNone => Raise TypeError
  end.

(** Modelled from the spec: [LoggingMixin.__init__] of [freqtrade.mixins]
    is not part of this module; it equips the instance with the
    logging/throttling capability and touches nothing else. *)
Definition LoggingMixin___init__ : M unit := assign set_logging_ready.

Definition calculate_unlock_at : M Z :=
  now_time ← datetime_now_utc;
  protection_config ← read w_protection_config;
  parsed ← lift (strptime_HM (py_str (dict_get protection_config "unlock_at" PyNone)));
  unlock_at ← lift (replace_date parsed (year now_time) (month now_time) (day now_time));
  unlock_at ← (if time_lt (time_of unlock_at) (time_of now_time)
               then lift (replace_day unlock_at (day now_time + 1))
               else mret unlock_at);
  unlock_at ← lift (replace_tzinfo unlock_at (Some utc));
  assign (set_unlock_at (Some unlock_at));;
  lift (calculate_timespan now_time unlock_at).

Definition set_unlock_at_as_stop_duration : M unit :=
  protection_config ← read w_protection_config;
  if dict_contains protection_config "unlock_at" then
    v ← calculate_unlock_at;
    assign (set__stop_duration v)
  else
    logger_warning NO_UNLOCK_AT_MSG.

Definition __init__ : M unit :=
  assign (set__stop_duration_candles None);;
  assign (set__lookback_period_candles None);;
  assign (set_unlock_at None);;
  config ← read w_config;
  protection_config ← read w_protection_config;
  tf_in_min ← lift (v ← dict_getitem config "timeframe"; timeframe_to_minutes v);
  (if dict_contains protection_config "stop_duration_candles" then
     n ← lift (py_int (dict_get protection_config "stop_duration_candles" (PyInt 1)));
     assign (set__stop_duration_candles (Some n));;
     assign (set__stop_duration (tf_in_min * n))
   else
     n ← lift (py_int (dict_get protection_config "stop_duration" (PyInt 60)));
     assign (set__stop_duration n));;
  (if dict_contains protection_config "lookback_period_candles" then
     n ← lift (py_int (dict_get protection_config "lookback_period_candles" (PyInt 1)));
     assign (set__lookback_period_candles (Some n));;
     assign (set__lookback_period (tf_in_min * n))
   else
     n ← lift (py_int (dict_get protection_config "lookback_period" (PyInt 60)));
     assign (set__lookback_period n));;
  set_unlock_at_as_stop_duration;;
  LoggingMixin___init__.

(** *** Properties of the instance *)

Definition name : M string := read (fun w => class_name (w_self w)).

(** [f"{n} {plural(n, singular, plural_)}"] *)
Definition count_str (n : Z) (singular plural_ : string) : string :=
  pretty n +:+ " " +:+ plural n singular plural_.

(** [if x:] on an optional integer: [None] and [0] are falsy. *)
Definition truthy (x : option Z) : bool :=
  match x with Some n => negb (n =? 0) | None => false end.

Definition stop_duration_str : M string :=
  candles ← read (fun w => _stop_duration_candles (w_self w));
  if truthy candles then
    n ← getattr _stop_duration_candles;
    mret (count_str n "candle" "candles")
  else
    n ← getattr _stop_duration;
    mret (count_str n "minute" "minutes").

Definition lookback_period_str : M string :=
  candles ← read (fun w => _lookback_period_candles (w_self w));
  if truthy candles then
    n ← getattr _lookback_period_candles;
    mret (count_str n "candle" "candles")
  else
    n ← getattr _lookback_period;
    mret (count_str n "minute" "minutes").

Definition unlock_at_str : M (option string) :=
  u ← read (fun w => unlock_at (w_self w));
  match u with
  | Some dt => mret (Some (strftime_HM dt))
  | None => mret None
  end.

End Protection.

(** ** Notions used in the statements *)

(** Microseconds since midnight of a wall-clock time. *)
Definition time_us (t : time) : Z :=
  t_hour t * (3600 * US_PER_SECOND) + t_minute t * US_PER_MINUTE
  + t_second t * US_PER_SECOND + t_microsecond t.

(** All datetimes of a list are zoned, or all are zoneless. *)
Definition uniform_awareness (xs : list datetime) : bool :=
  match xs with
  | [] => true
  | x :: rest => forallb (same_awareness x) rest
  end.

(** A wall-clock reading, in microseconds, that a [datetime] can hold:
    from 0001-01-01 00:00 up to the end of 9999-12-31. *)
Definition representable (us : Z) : Prop :=
  US_PER_DAY <= us < (_MAXORDINAL + 1) * US_PER_DAY.

(** The last day of the month a datetime falls in. *)
Definition last_day_of_month (dt : datetime) : bool :=
  day dt =? _days_in_month (year dt) (month dt).

(** What [datetime.now(timezone.utc)] reads in a store. *)
Definition utc_now (w : world) : datetime :=
  let c := w_clock w in
  mkDatetime (year c) (month c) (day c) (hour c) (minute c) (second c)
             (microsecond c) (Some utc).

(** The clock time of [p] on the date of [now], in UTC, and the same one
    day-of-month further. *)
Definition unlock_today (now p : datetime) : datetime :=
  mkDatetime (year now) (month now) (day now)
             (hour p) (minute p) (second p) (microsecond p) (Some utc).

Definition unlock_next_day (now p : datetime) : datetime :=
  mkDatetime (year now) (month now) (day now + 1)
             (hour p) (minute p) (second p) (microsecond p) (Some utc).

(** The value of the [unlock_at] entry as [calculate_unlock_at] reads it. *)
Definition unlock_at_entry (w : world) : string :=
  py_str (dict_get (w_protection_config w) "unlock_at" PyNone).

(** The entry of the protection configuration that the constructor converts
    for the stop duration, and the one for the lookback period. *)
Definition stop_entry (pc : gmap string pyval) : pyval :=
  if dict_contains pc "stop_duration_candles"
  then dict_get pc "stop_duration_candles" (PyInt 1)
  else dict_get pc "stop_duration" (PyInt 60).

Definition lookback_entry (pc : gmap string pyval) : pyval :=
  if dict_contains pc "lookback_period_candles"
  then dict_get pc "lookback_period_candles" (PyInt 1)
  else dict_get pc "lookback_period" (PyInt 60).

(** The attribute bindings of the two window steps, given the converted
    entry. *)
Definition bind_stop_duration (T : Z) (pc : gmap string pyval) (n : Z)
    (o : IProtection) : IProtection :=
  if dict_contains pc "stop_duration_candles"
  then set__stop_duration (T * n) (set__stop_duration_candles (Some n) o)
  else set__stop_duration n o.

Definition bind_lookback_period (T : Z) (pc : gmap string pyval) (n : Z)
    (o : IProtection) : IProtection :=
  if dict_contains pc "lookback_period_candles"
  then set__lookback_period (T * n) (set__lookback_period_candles (Some n) o)
  else set__lookback_period n o.


(** The store before the constructor body runs: a new object, nothing
    bound yet. *)
Definition fresh (cls : string) : IProtection :=
  mkIProtection None None None None None cls false.

(** The two mappings of a store. *)
Definition configs (w : world) : gmap string pyval * gmap string pyval :=
  (w_config w, w_protection_config w).

(** A method that leaves an observation [f] of the store as it found it,
    whether it returns or raises. *)
Definition keeps {A X} (f : world -> X) (m : M A) : Prop :=
  forall w, f (m w).2 = f w.

(** A method that leaves both mappings as it found them. *)
Definition reads_only {A} (m : M A) : Prop := keeps configs m.

(** The candle count of the stop duration, as an observation of the store. *)
Definition stop_candles (w : world) : option Z := _stop_duration_candles (w_self w).


(** The canonical two-digit spelling of a time of day. *)
Definition HH_MM (h mi : Z) : string := pad2 h +:+ ":" +:+ pad2 mi.

(** The store the constructor leaves when it fails before the window steps. *)
Definition unbound (w : world) : world :=
  with_self (fun o => set_unlock_at None
               (set__lookback_period_candles None
                  (set__stop_duration_candles None o))) w.

(** ** Data of the worked examples *)

Module Sample.

Definition naive (y mo d h mi s : Z) : datetime := mkDatetime y mo d h mi s 0 None.
Definition zoned (y mo d h mi s : Z) : datetime := mkDatetime y mo d h mi s 0 (Some utc).

(** The result of parsing ["HH:MM"]. *)
Definition parsed (h mi : Z) : datetime := naive 1900 1 1 h mi 0.

(** A store before construction: timeframe ["5m"], the given protection
    configuration and clock, a new object and an empty log. *)
Definition store (pc : gmap string pyval) (clock : datetime) : world :=
  mkWorld {[ "timeframe" := PyStr "5m" ]} pc (fresh "StoplossGuard") clock [].

Definition construct (pc : gmap string pyval) (clock : datetime) : result unit * world :=
  __init__ sample_timeframe_to_minutes sample_int_of_str (store pc clock).

Definition unlock_2200 : gmap string pyval := {[ "unlock_at" := PyStr "22:00" ]}.
Definition unlock_0900 : gmap string pyval := {[ "unlock_at" := PyStr "09:00" ]}.
Definition two_candles_unlock_0900 : gmap string pyval :=
  {[ "stop_duration_candles" := PyInt 2; "unlock_at" := PyStr "09:00" ]}.
Definition zero_candles : gmap string pyval := {[ "stop_duration_candles" := PyInt 0 ]}.
Definition two_candles : gmap string pyval := {[ "stop_duration_candles" := PyInt 2 ]}.
Definition minutes_45 : gmap string pyval := {[ "stop_duration" := PyInt 45 ]}.

Definition closed_trades : list LocalTrade :=
  [ mkTrade (Some (naive 2024 1 15 10 0 0)); mkTrade None;
    mkTrade (Some (naive 2024 1 31 23 0 0)); mkTrade (Some (naive 2024 1 20 7 30 0)) ].

Definition mixed_trades : list LocalTrade :=
  [ mkTrade (Some (naive 2024 1 15 10 0 0)); mkTrade (Some (zoned 2024 1 15 11 0 0)) ].

Definition last_minute_trades : list LocalTrade :=
  [ mkTrade (Some (naive 9999 12 31 23 59 0)) ].

Definition open_trades : list LocalTrade := [ mkTrade None; mkTrade None ].

Definition rearranged_trades : list LocalTrade :=
  [ mkTrade None; mkTrade (Some (naive 2024 1 15 10 0 0));
    mkTrade (Some (naive 2024 1 31 23 0 0)); mkTrade (Some (naive 2024 1 20 7 30 0)) ].

Definition zoned_trades : list LocalTrade :=
  [ mkTrade (Some (zoned 2024 1 15 10 0 0)); mkTrade (Some (zoned 2024 1 31 23 0 0)) ].

Definition unlock_short : gmap string pyval := {[ "unlock_at" := PyStr "9:5" ]}.
Definition lookback_3_candles_unlock_0900 : gmap string pyval :=
  {[ "lookback_period_candles" := PyInt 3; "unlock_at" := PyStr "09:00" ]}.
Definition lookback_zero_candles : gmap string pyval :=
  {[ "lookback_period_candles" := PyInt 0 ]}.

(** A store whose global configuration has no timeframe. *)
Definition store_without_timeframe (pc : gmap string pyval) (clock : datetime) : world :=
  mkWorld ∅ pc (fresh "StoplossGuard") clock [].

End Sample.

(** * Properties *)

(** ** The calendar *)

Section CalendarFacts.

Lemma days_before_year_decomp a b c e :
  0 <= a -> 0 <= b <= 3 -> 0 <= c <= 24 -> 0 <= e <= 3 ->
  _days_before_year (400 * a + 100 * b + 4 * c + e + 1)
  = 146097 * a + 36524 * b + 1461 * c + 365 * e.
Proof.
  intros Ha Hb Hc He. unfold _days_before_year.
  Z.div_mod_to_equations; lia.
Qed.

Lemma is_leap_decomp a b c e :
  0 <= a -> 0 <= b <= 3 -> 0 <= c <= 24 -> 0 <= e <= 3 ->
  _is_leap (400 * a + 100 * b + 4 * c + e + 1)
  = (e =? 3) && (negb (c =? 24) || (b =? 3)).
Proof.
  intros Ha Hb Hc He. unfold _is_leap.
  repeat match goal with
         | |- context [?x =? ?y] => destruct (Z.eqb_spec x y)
         end; simpl; try reflexivity;
    exfalso; Z.div_mod_to_equations; lia.
Qed.

Lemma yday_ok_all leap n : 0 <= n < 365 -> yday_ok leap n = true.
Proof.
  intros Hn.
  assert (Hall : forallb (fun k => yday_ok true (Z.of_nat k) && yday_ok false (Z.of_nat k))
                   (seq 0 365) = true) by (vm_compute; reflexivity).
  rewrite forallb_forall in Hall.
  specialize (Hall (Z.to_nat n)).
  rewrite Z2Nat.id in Hall by lia.
  assert (Hin : In (Z.to_nat n) (seq 0 365)) by (apply in_seq; lia).
  apply Hall in Hin. apply andb_true_iff in Hin as [Ht Hf].
  destruct leap; assumption.
Qed.

Lemma ord2ymd_ymd2ord n :
  1 <= n ->
  let '(y, m, d) := _ord2ymd n in
  _ymd2ord y m d = n /\ 1 <= m <= 12 /\ 1 <= d <= _days_in_month y m
  /\ (n <= _MAXORDINAL -> 1 <= y <= 9999).
Proof.
  intros Hn. unfold _ord2ymd, _DI400Y, _DI100Y, _DI4Y.
  set (n0 := n - 1).
  pose proof (Z.div_mod n0 146097 ltac:(lia)) as E1.
  pose proof (Z.mod_pos_bound n0 146097 ltac:(lia)) as B1.
  set (a := n0 / 146097) in *. set (r1 := n0 mod 146097) in *.
  pose proof (Z.div_mod r1 36524 ltac:(lia)) as E2.
  pose proof (Z.mod_pos_bound r1 36524 ltac:(lia)) as B2.
  set (b := r1 / 36524) in *. set (r2 := r1 mod 36524) in *.
  pose proof (Z.div_mod r2 1461 ltac:(lia)) as E3.
  pose proof (Z.mod_pos_bound r2 1461 ltac:(lia)) as B3.
  set (c := r2 / 1461) in *. set (r3 := r2 mod 1461) in *.
  pose proof (Z.div_mod r3 365 ltac:(lia)) as E4.
  pose proof (Z.mod_pos_bound r3 365 ltac:(lia)) as B4.
  set (e := r3 / 365) in *. set (r4 := r3 mod 365) in *.
  assert (Ha : 0 <= a) by (subst a n0; apply Z.div_pos; lia).
  assert (Hb : 0 <= b <= 4) by lia.
  assert (Hc : 0 <= c <= 24) by lia.
  assert (He : 0 <= e <= 4) by lia.
  destruct (Z.eqb_spec e 4) as [He4 | He4]; simpl.
  - (* last day of a leap year *)
    replace (a * 400 + 1 + b * 100 + c * 4 + e - 1)
      with (400 * a + 100 * b + 4 * c + 3 + 1) by lia.
    assert (Hb3 : b <= 3) by lia.
    assert (Hc24 : c = 24 -> b = 3) by lia.
    unfold _ymd2ord, _days_before_month, _days_in_month.
    rewrite days_before_year_decomp, is_leap_decomp by lia.
    replace (3 =? 3) with true by reflexivity.
    destruct (Z.eqb_spec c 24), (Z.eqb_spec b 3); simpl; unfold _MAXORDINAL; try lia.
  - destruct (Z.eqb_spec b 4) as [Hb4 | Hb4]; simpl.
    + (* last day of a 400-year cycle *)
      assert (c = 0 /\ e = 0) as [-> ->] by lia.
      replace (a * 400 + 1 + b * 100 + 0 * 4 + 0 - 1)
        with (400 * a + 100 * 3 + 4 * 24 + 3 + 1) by lia.
      unfold _ymd2ord, _days_before_month, _days_in_month.
      rewrite days_before_year_decomp, is_leap_decomp by lia.
      simpl. unfold _MAXORDINAL. lia.
    + pose proof (yday_ok_all ((e =? 3) && (negb (c =? 24) || (b =? 3))) r4 ltac:(lia)) as Hy.
      unfold yday_ok in Hy.
      destruct (month_of_yday _ r4) as [m d].
      replace (a * 400 + 1 + b * 100 + c * 4 + e)
        with (400 * a + 100 * b + 4 * c + e + 1) by lia.
      unfold _ymd2ord, _days_before_month, _days_in_month.
      rewrite days_before_year_decomp, is_leap_decomp by lia.
      repeat (apply andb_true_iff in Hy as [Hy ?]).
      destruct ((e =? 3) && (negb (c =? 24) || (b =? 3)));
        (destruct (Z.eqb_spec m 2) as [-> | ?];
         [ change (2 <? 2) with false | destruct (Z.ltb_spec 2 m) ]);
        simpl in *; unfold _MAXORDINAL; lia.
Qed.

Lemma days_before_year_succ y :
  _days_before_year (y + 1) = _days_before_year y + 365 + (if _is_leap y then 1 else 0).
Proof.
  unfold _days_before_year, _is_leap.
  repeat match goal with
         | |- context [?x =? ?y] => destruct (Z.eqb_spec x y)
         end; simpl; Z.div_mod_to_equations; lia.
Qed.

Lemma days_before_year_bounds y :
  1 <= y <= 10000 -> 0 <= _days_before_year y <= 3652059.
Proof. unfold _days_before_year. intros. Z.div_mod_to_equations. lia. Qed.

Lemma days_in_year_month y m d :
  1 <= m <= 12 -> 1 <= d <= _days_in_month y m ->
  1 <= _days_before_month y m + d <= 365 + (if _is_leap y then 1 else 0).
Proof.
  intros Hm. unfold _days_before_month, _days_in_month.
  assert (Hc : m = 1 \/ m = 2 \/ m = 3 \/ m = 4 \/ m = 5 \/ m = 6 \/ m = 7
               \/ m = 8 \/ m = 9 \/ m = 10 \/ m = 11 \/ m = 12) by lia.
  destruct (_is_leap y);
    repeat (destruct Hc as [-> | Hc]); try subst m; simpl; lia.
Qed.

Lemma ymd2ord_bounds y m d :
  check_date_fields y m d = true -> 1 <= _ymd2ord y m d <= _MAXORDINAL.
Proof.
  unfold check_date_fields, MINYEAR, MAXYEAR. intros H.
  repeat (apply andb_true_iff in H as [H ?]).
  pose proof (days_in_year_month y m d ltac:(lia) ltac:(lia)) as Hd.
  pose proof (days_before_year_succ y) as Hs.
  pose proof (days_before_year_bounds y ltac:(lia)).
  pose proof (days_before_year_bounds (y + 1) ltac:(lia)).
  unfold _ymd2ord, _MAXORDINAL. lia.
Qed.

End CalendarFacts.

(** ** Dates and times *)

Section DatetimeFacts.

Lemma datetime_new_Ok y mo d h mi s us tz r :
  datetime_new y mo d h mi s us tz = Ok r ->
  r = mkDatetime y mo d h mi s us tz /\ valid_datetime r = true.
Proof.
  unfold datetime_new, valid_datetime.
  destruct (check_date_fields y mo d && check_time_fields h mi s us) eqn:E;
    intros [= <-]; auto.
Qed.

Lemma datetime_new_valid y mo d h mi s us tz :
  valid_datetime (mkDatetime y mo d h mi s us tz) = true ->
  datetime_new y mo d h mi s us tz = Ok (mkDatetime y mo d h mi s us tz).
Proof. unfold datetime_new, valid_datetime. simpl. intros ->. reflexivity. Qed.

Lemma valid_datetime_time dt :
  valid_datetime dt = true ->
  0 <= hour dt <= 23 /\ 0 <= minute dt <= 59 /\ 0 <= second dt <= 59
  /\ 0 <= microsecond dt <= 999999.
Proof.
  unfold valid_datetime, check_time_fields. intros H.
  repeat (apply andb_true_iff in H as [H ?]). lia.
Qed.

Lemma valid_datetime_date dt :
  valid_datetime dt = true ->
  check_date_fields (year dt) (month dt) (day dt) = true.
Proof. unfold valid_datetime. intros H. apply andb_true_iff in H as [H _]. exact H. Qed.

Lemma time_lt_spec a b :
  0 <= t_minute a <= 59 -> 0 <= t_second a <= 59 -> 0 <= t_microsecond a <= 999999 ->
  0 <= t_minute b <= 59 -> 0 <= t_second b <= 59 -> 0 <= t_microsecond b <= 999999 ->
  time_lt a b = (time_us a <? time_us b).
Proof.
  intros. unfold time_lt, time_us, US_PER_MINUTE, US_PER_SECOND.
  repeat match goal with
         | |- context [?x <? ?y] => destruct (Z.ltb_spec x y)
         end; try reflexivity; lia.
Qed.

Lemma local_us_split dt :
  local_us dt = toordinal dt * US_PER_DAY + time_us (time_of dt).
Proof. unfold local_us, time_us, time_of. simpl. lia. Qed.

Lemma valid_time_us dt :
  valid_datetime dt = true -> 0 <= time_us (time_of dt) < US_PER_DAY.
Proof.
  intros H. apply valid_datetime_time in H.
  unfold time_us, time_of, US_PER_DAY, US_PER_MINUTE, US_PER_SECOND. simpl. lia.
Qed.

Lemma valid_local_us dt :
  valid_datetime dt = true -> representable (local_us dt).
Proof.
  intros H. pose proof (valid_time_us dt H).
  pose proof (ymd2ord_bounds _ _ _ (valid_datetime_date dt H)).
  rewrite local_us_split.
  unfold representable, toordinal, US_PER_DAY, US_PER_SECOND, _MAXORDINAL in *. lia.
Qed.

(** Splitting a count of microseconds within a day into clock fields. *)
Lemma clock_fields rem :
  0 <= rem < US_PER_DAY ->
  let secs := rem / US_PER_SECOND in
  let h := secs / 3600 in
  let mi := (secs mod 3600) / 60 in
  let s := secs mod 60 in
  let us := rem mod US_PER_SECOND in
  check_time_fields h mi s us = true
  /\ h * (3600 * US_PER_SECOND) + mi * US_PER_MINUTE + s * US_PER_SECOND + us = rem.
Proof.
  unfold US_PER_DAY, US_PER_MINUTE, US_PER_SECOND. intros Hr. cbv zeta.
  pose proof (Z.div_mod rem 1000000 ltac:(lia)) as E1.
  pose proof (Z.mod_pos_bound rem 1000000 ltac:(lia)) as B1.
  set (secs := rem / 1000000) in *. set (us := rem mod 1000000) in *.
  pose proof (Z.div_mod secs 3600 ltac:(lia)) as E2.
  pose proof (Z.mod_pos_bound secs 3600 ltac:(lia)) as B2.
  set (h := secs / 3600) in *. set (r := secs mod 3600) in *.
  pose proof (Z.div_mod r 60 ltac:(lia)) as E3.
  pose proof (Z.mod_pos_bound r 60 ltac:(lia)) as B3.
  assert (Es : secs mod 60 = r mod 60).
  { rewrite E2 at 1. replace (3600 * h + r) with (r + (60 * h) * 60) by lia.
    apply Z.mod_add. lia. }
  rewrite Es.
  set (mi := r / 60) in *. set (s := r mod 60) in *.
  split.
  - unfold check_time_fields.
    repeat (apply andb_true_iff; split); apply Z.leb_le; lia.
  - lia.
Qed.

(** Adding a duration moves the wall-clock reading by that duration, keeps
    the zone, and yields a well-formed datetime, whenever the sum can be
    held. *)
Lemma datetime_add_spec dt delta :
  representable (local_us dt + total_microseconds delta) ->
  exists r, datetime_add dt delta = Ok r
            /\ local_us r = local_us dt + total_microseconds delta
            /\ tzinfo r = tzinfo dt
            /\ valid_datetime r = true.
Proof.
  unfold representable, datetime_add. intros Hr.
  set (total := local_us dt + total_microseconds delta) in *.
  assert (Hd : US_PER_DAY = 86400000000) by reflexivity.
  assert (Hdays : 1 <= total / US_PER_DAY <= _MAXORDINAL).
  { rewrite Hd in *. split.
    - apply Z.div_le_lower_bound; lia.
    - apply Z.lt_succ_r, Z.div_lt_upper_bound; lia. }
  destruct (Z.ltb_spec 0 (total / US_PER_DAY)); [| lia].
  destruct (Z.leb_spec (total / US_PER_DAY) _MAXORDINAL); [| lia].
  cbn [andb].
  pose proof (ord2ymd_ymd2ord (total / US_PER_DAY) ltac:(lia)) as Hrt.
  destruct (_ord2ymd (total / US_PER_DAY)) as [[y mo] d].
  destruct Hrt as (Hord & Hmo & Hday & Hy).
  specialize (Hy ltac:(lia)).
  eexists. split; [reflexivity |].
  pose proof (Z.div_mod total US_PER_DAY ltac:(lia)) as Et.
  pose proof (Z.mod_pos_bound total US_PER_DAY ltac:(lia)) as Bt.
  destruct (clock_fields (total mod US_PER_DAY) Bt) as [Hck Hsum].
  split; [| split; [reflexivity |]].
  - unfold local_us, toordinal. cbn [year month day hour minute second microsecond].
    rewrite Hord. lia.
  - unfold valid_datetime. cbn [year month day hour minute second microsecond].
    rewrite Hck, andb_true_r.
    unfold check_date_fields, MINYEAR, MAXYEAR.
    repeat (apply andb_true_iff; split); apply Z.leb_le; lia.
Qed.

End DatetimeFacts.

(** ** Maximum of a list of datetimes *)

Section MaxFacts.

Lemma same_awareness_sym a b : same_awareness a b = same_awareness b a.
Proof. unfold same_awareness. destruct (tzinfo a), (tzinfo b); reflexivity. Qed.

Lemma same_awareness_trans a b c :
  same_awareness a b = true -> same_awareness a c = true -> same_awareness b c = true.
Proof.
  unfold same_awareness.
  destruct (tzinfo a), (tzinfo b), (tzinfo c); intros; congruence.
Qed.

Lemma same_awareness_refl a : same_awareness a a = true.
Proof. unfold same_awareness. destruct (tzinfo a); reflexivity. Qed.

Lemma max_from_spec xs : forall cur,
  forallb (same_awareness cur) xs = true ->
  exists m, max_from cur xs = Ok m
            /\ m ∈ cur :: xs
            /\ same_awareness cur m = true
            /\ forall x, x ∈ cur :: xs -> instant x <= instant m.
Proof.
  induction xs as [| x rest IH]; intros cur Hu.
  - exists cur. repeat split.
    + left.
    + apply same_awareness_refl.
    + intros y Hy. apply list_elem_of_singleton in Hy as ->. lia.
  - simpl in Hu. apply andb_true_iff in Hu as [Hx Hrest].
    cbn [max_from]. unfold datetime_gt, mbind, result_bind.
    rewrite same_awareness_sym, Hx.
    assert (Hnext : forallb (same_awareness (if instant cur <? instant x then x else cur))
                      rest = true).
    { destruct (instant cur <? instant x); [| exact Hrest].
      apply forallb_forall. intros y Hy.
      rewrite forallb_forall in Hrest.
      eapply same_awareness_trans; [exact Hx | auto]. }
    destruct (IH _ Hnext) as (m & Hm & Hin & Haw & Hmax).
    exists m. split; [exact Hm |]. split; [| split].
    + apply elem_of_cons in Hin as [-> | Hin].
      * destruct (instant cur <? instant x); [right; left | left].
      * right; right; exact Hin.
    + destruct (instant cur <? instant x); [| exact Haw].
      apply same_awareness_trans with x; [| exact Haw].
      rewrite same_awareness_sym. exact Hx.
    + intros y Hy.
      assert (Hc : instant cur <= instant m /\ instant x <= instant m).
      { pose proof (Hmax _ (list_elem_of_here _ _)) as H0.
        destruct (Z.ltb_spec (instant cur) (instant x)); lia. }
      apply elem_of_cons in Hy as [-> | Hy]; [lia |].
      apply elem_of_cons in Hy as [-> | Hy]; [lia |].
      apply Hmax. right. exact Hy.
Qed.

Lemma py_max_spec xs :
  xs <> [] -> uniform_awareness xs = true ->
  exists m, py_max xs = Ok m /\ m ∈ xs /\ forall x, x ∈ xs -> instant x <= instant m.
Proof.
  destruct xs as [| x rest]; [congruence |]. intros _ Hu.
  destruct (max_from_spec rest x Hu) as (m & Hm & Hin & _ & Hmax).
  exists m. auto.
Qed.

Lemma closed_dates_nil trades :
  Forall (fun t => close_date t = None) trades -> closed_dates trades = [].
Proof.
  unfold closed_dates. induction 1 as [| t rest Ht _ IH]; [reflexivity |].
  cbn [omap list_omap]. rewrite Ht. exact IH.
Qed.

Lemma datetime_add_Ok_inv dt delta r :
  datetime_add dt delta = Ok r ->
  representable (local_us dt + total_microseconds delta).
Proof.
  unfold datetime_add, representable.
  set (total := local_us dt + total_microseconds delta).
  destruct (Z.ltb_spec 0 (total / US_PER_DAY)); cbn [andb]; [| discriminate].
  destruct (Z.leb_spec (total / US_PER_DAY) _MAXORDINAL); [| discriminate].
  intros _. unfold US_PER_DAY, US_PER_SECOND, _MAXORDINAL in *.
  Z.div_mod_to_equations. lia.
Qed.

(** [Z.quot] by a minute is truncation toward zero. *)
Lemma quot_truncates span :
  Z.abs (Z.quot span US_PER_MINUTE) * US_PER_MINUTE <= Z.abs span
    < (Z.abs (Z.quot span US_PER_MINUTE) + 1) * US_PER_MINUTE
  /\ 0 <= Z.quot span US_PER_MINUTE * span.
Proof.
  change US_PER_MINUTE with 60000000.
  pose proof (Z.quot_rem span 60000000 ltac:(discriminate)) as E.
  pose proof (Z.rem_bound_abs span 60000000 ltac:(discriminate)) as B.
  pose proof (Z.rem_sign_mul span 60000000 ltac:(discriminate)) as S.
  set (q := Z.quot span 60000000) in *. set (r := Z.rem span 60000000) in *.
  assert (Hr : (0 <= span -> 0 <= r) /\ (span <= 0 -> r <= 0)) by nia.
  destruct Hr as [Hp Hn].
  destruct (Z.le_ge_cases 0 span) as [H | H].
  - specialize (Hp H). assert (0 <= q) by lia. split; [lia | nia].
  - specialize (Hn H). assert (q <= 0) by lia. split; [lia | nia].
Qed.

End MaxFacts.

(** ** The static helpers *)

Section StaticHelpers.


Lemma closed_dates_elem trades d :
  d ∈ closed_dates trades <-> exists t, t ∈ trades /\ close_date t = Some d.
Proof. unfold closed_dates. apply list_elem_of_omap. Qed.

Lemma timedelta_minutes_small m :
  - (_MAXORDINAL + 1) * US_PER_DAY < m * US_PER_MINUTE < (_MAXORDINAL + 1) * US_PER_DAY ->
  timedelta_minutes m = Ok (mkDelta (m * US_PER_MINUTE)).
Proof.
  unfold timedelta_minutes, timedelta_of_us.
  unfold US_PER_DAY, US_PER_MINUTE, US_PER_SECOND, _MAXORDINAL. intros H.
  set (us := m * (60 * 1000000)) in *.
  assert (Hb : - MAX_DELTA_DAYS <= us / (86400 * 1000000) <= MAX_DELTA_DAYS).
  { unfold MAX_DELTA_DAYS. Z.div_mod_to_equations. lia. }
  destruct (Z.leb_spec (- MAX_DELTA_DAYS) (us / (86400 * 1000000))); [| lia].
  destruct (Z.leb_spec (us / (86400 * 1000000)) MAX_DELTA_DAYS); [| lia].
  reflexivity.
Qed.

(** C4 (as amended).  When at least one trade has a close date, the close
    dates are all zoned or all zoneless, and the latest of them moved by
    [stop_minutes] minutes is still a date a datetime can hold,
    [calculate_lock_end] returns that latest close date plus [stop_minutes]
    minutes, read as UTC when it carries no zone. *)
Theorem calculate_lock_end_spec (trades : list LocalTrade) (stop_minutes : Z) :
  (exists t, t ∈ trades /\ is_Some (close_date t)) ->
  forallb valid_datetime (closed_dates trades) = true ->
  uniform_awareness (closed_dates trades) = true ->
  (forall d, d ∈ closed_dates trades ->
             (forall d', d' ∈ closed_dates trades -> instant d' <= instant d) ->
             representable (local_us d + stop_minutes * US_PER_MINUTE)) ->
  exists max_date until,
    calculate_lock_end trades stop_minutes = Ok until
    /\ max_date ∈ closed_dates trades
    /\ (forall d, d ∈ closed_dates trades -> instant d <= instant max_date)
    /\ instant until = instant max_date + stop_minutes * US_PER_MINUTE
    /\ tzinfo until = Some (default utc (tzinfo max_date))
    /\ valid_datetime until = true.
Proof.
  intros (t0 & Ht0 & [d0 Hd0]) Hvalid Hu Hrange.
  assert (Hne : closed_dates trades <> []).
  { intros E. assert (Hin : d0 ∈ closed_dates trades)
      by (apply closed_dates_elem; eauto).
    rewrite E in Hin. inversion Hin. }
  destruct (py_max_spec _ Hne Hu) as (mx & Hmx & Hin & Hmax).
  specialize (Hrange mx Hin Hmax).
  assert (Hv : valid_datetime mx = true).
  { rewrite forallb_forall in Hvalid. apply Hvalid, list_elem_of_In, Hin. }
  exists mx.
  unfold calculate_lock_end, mbind, result_bind. rewrite Hmx.
  set (mx' := mkDatetime (year mx) (month mx) (day mx) (hour mx) (minute mx)
                         (second mx) (microsecond mx)
                         (Some (default utc (tzinfo mx)))).
  assert (Hnorm : match tzinfo mx with
                  | None => replace_tzinfo mx (Some utc)
                  | Some _ => Ok mx
                  end = Ok mx').
  { subst mx'. destruct mx as [y mo d h mi s us [tz |]]; cbn.
    - reflexivity.
    - apply datetime_new_valid. exact Hv. }
  rewrite Hnorm.
  pose proof (valid_local_us mx Hv) as Hl.
  rewrite timedelta_minutes_small
    by (unfold representable, US_PER_DAY, US_PER_MINUTE, US_PER_SECOND, _MAXORDINAL in *;
        lia).
  assert (Hl' : local_us mx' = local_us mx) by reflexivity.
  destruct (datetime_add_spec mx' (mkDelta (stop_minutes * US_PER_MINUTE)))
    as (r & Hr & Hus & Htz & Hvr).
  { rewrite Hl'. exact Hrange. }
  exists r. rewrite Hr. repeat split; auto.
  cbn [total_microseconds] in Hus. rewrite Hl' in Hus.
  unfold instant. rewrite Htz. subst mx'. cbn [tzinfo].
  destruct (tzinfo mx) as [tz |]; cbn; lia.
Qed.

(** C6.  When the list of trades is empty or no trade in it has a close
    date, [calculate_lock_end] raises (a [ValueError], from [max] of an
    empty sequence) and returns no timestamp. *)
Theorem calculate_lock_end_no_closed_trade (trades : list LocalTrade) (stop_minutes : Z) :
  Forall (fun t => close_date t = None) trades ->
  calculate_lock_end trades stop_minutes = Raise ValueError
  /\ raises (calculate_lock_end trades stop_minutes).
Proof.
  intros H. unfold calculate_lock_end.
  rewrite (closed_dates_nil _ H). split; exact I || reflexivity.
Qed.

End StaticHelpers.

(** ** What the methods leave untouched *)

Section Frame.

Context {X : Type} (f : world -> X).

Lemma bind_run {A B} (m : M A) (k : A -> M B) w :
  (m ≫= k) w = match m w with
               | (Ok a, w') => k a w'
               | (Raise e, w') => (Raise e, w')
               end.
Proof. reflexivity. Qed.

Lemma keeps_ret {A} (a : A) : keeps f (mret a).
Proof. intros w. reflexivity. Qed.

Lemma keeps_bind {A B} (m : M A) (k : A -> M B) :
  keeps f m -> (forall a, keeps f (k a)) -> keeps f (m ≫= k).
Proof.
  intros Hm Hk w. rewrite bind_run. specialize (Hm w).
  destruct (m w) as [[a | e] w']; cbn in *.
  - rewrite Hk. exact Hm.
  - exact Hm.
Qed.

Lemma keeps_lift {A} (r : result A) : keeps f (lift r).
Proof. intros w. reflexivity. Qed.

Lemma keeps_read {A} (g : world -> A) : keeps f (read g).
Proof. intros w. reflexivity. Qed.

Lemma keeps_getattr g : keeps f (getattr g).
Proof. intros w. unfold getattr. destruct (g (w_self w)); reflexivity. Qed.

Lemma keeps_now : keeps f datetime_now_utc.
Proof. intros w. reflexivity. Qed.

Lemma keeps_assign g :
  (forall w, f (with_self g w) = f w) -> keeps f (assign g).
Proof. intros H w. apply H. Qed.

Lemma keeps_logger_warning msg :
  (forall g w, f (with_log g w) = f w) -> keeps f (logger_warning msg).
Proof. intros H w. apply H. Qed.

Lemma keeps_if {A} (b : bool) (m1 m2 : M A) :
  keeps f m1 -> keeps f m2 -> keeps f (if b then m1 else m2).
Proof. destruct b; auto. Qed.

End Frame.

Ltac frame :=
  unfold reads_only;
  repeat first
    [ assumption
    | apply keeps_ret | apply keeps_lift | apply keeps_read
    | apply keeps_getattr | apply keeps_now
    | apply keeps_assign; solve [ reflexivity | auto ]
    | apply keeps_logger_warning; solve [ reflexivity | auto ]
    | match goal with
      | |- keeps _ (_ ≫= _) => apply keeps_bind; [| intros ? ]
      | |- keeps _ (if _ then _ else _) => apply keeps_if
      | |- keeps _ (match ?x with _ => _ end) => destruct x
      end ].

Section FrameOfMethods.

Variable timeframe_to_minutes : pyval -> result Z.
Variable int_of_str : string -> result Z.
Variable plural : Z -> string -> string -> string.

Lemma keeps_calculate_unlock_at {X} (f : world -> X) :
  (forall u w, f (with_self (set_unlock_at u) w) = f w) ->
  keeps f calculate_unlock_at.
Proof. intros Hu. unfold calculate_unlock_at. frame. Qed.

Lemma keeps_set_unlock_at_as_stop_duration {X} (f : world -> X) :
  (forall u w, f (with_self (set_unlock_at u) w) = f w) ->
  (forall v w, f (with_self (set__stop_duration v) w) = f w) ->
  (forall g w, f (with_log g w) = f w) ->
  keeps f set_unlock_at_as_stop_duration.
Proof.
  intros Hu Hs Hl. pose proof (keeps_calculate_unlock_at f Hu).
  unfold set_unlock_at_as_stop_duration. frame.
Qed.

Lemma reads_only_init : reads_only (__init__ timeframe_to_minutes int_of_str).
Proof.
  assert (keeps configs set_unlock_at_as_stop_duration)
    by (apply keeps_set_unlock_at_as_stop_duration; reflexivity).
  unfold __init__, LoggingMixin___init__. frame.
Qed.

(** C10.  Construction, the unlock-time computation and every property of
    the instance leave the global configuration mapping and the
    protection configuration mapping as they found them, on normal return
    and when an exception escapes: every key keeps its value.  (The two
    static helpers take no mapping at all.) *)
Theorem configs_never_mutated :
  (forall w k,
      let w' := (__init__ timeframe_to_minutes int_of_str w).2 in
      w_config w' = w_config w
      /\ w_protection_config w' = w_protection_config w
      /\ w_config w' !! k = w_config w !! k
      /\ w_protection_config w' !! k = w_protection_config w !! k)
  /\ reads_only set_unlock_at_as_stop_duration
  /\ reads_only calculate_unlock_at
  /\ reads_only name
  /\ reads_only (stop_duration_str plural)
  /\ reads_only (lookback_period_str plural)
  /\ reads_only unlock_at_str.
Proof.
  split.
  { intros w k. pose proof (reads_only_init w) as H.
    unfold configs in H. injection H as H1 H2.
    cbv zeta. rewrite H1, H2. auto. }
  split; [apply keeps_set_unlock_at_as_stop_duration; reflexivity |].
  split; [apply keeps_calculate_unlock_at; reflexivity |].
  split; [unfold name; frame |].
  split; [unfold stop_duration_str; frame |].
  split; [unfold lookback_period_str; frame |].
  unfold unlock_at_str; frame.
Qed.

End FrameOfMethods.

(** ** The unlock time *)

Section UnlockAt.

Lemma strptime_HM_Ok s p :
  strptime_HM s = Ok p ->
  year p = 1900 /\ month p = 1 /\ day p = 1 /\ second p = 0 /\ microsecond p = 0
  /\ tzinfo p = None /\ 0 <= hour p <= 23 /\ 0 <= minute p <= 59.
Proof.
  unfold strptime_HM.
  destruct (first_match (re_H s)) as [[[h mi] rest] |]; [| discriminate].
  destruct rest; [| discriminate].
  intros H. apply datetime_new_Ok in H as [-> Hv].
  apply valid_datetime_time in Hv. cbn in *.
  repeat split; try reflexivity; lia.
Qed.

Lemma datetime_now_utc_run w :
  valid_datetime (w_clock w) = true ->
  datetime_now_utc w = (Ok (utc_now w), w).
Proof.
  intros Hv. unfold datetime_now_utc, replace_tzinfo, utc_now.
  rewrite datetime_new_valid; [reflexivity |]. exact Hv.
Qed.

(** What [calculate_unlock_at] does, case by case. *)
Lemma calculate_unlock_at_run w p :
  valid_datetime (w_clock w) = true ->
  strptime_HM (unlock_at_entry w) = Ok p ->
  calculate_unlock_at w =
    if time_lt (time_of p) (time_of (w_clock w)) then
      if day (w_clock w) + 1 <=? _days_in_month (year (w_clock w)) (month (w_clock w))
      then
        (Ok (Z.quot (instant (unlock_next_day (w_clock w) p) - instant (utc_now w))
                    US_PER_MINUTE),
         with_self (set_unlock_at (Some (unlock_next_day (w_clock w) p))) w)
      else (Raise ValueError, w)
    else
      (Ok (Z.quot (instant (unlock_today (w_clock w) p) - instant (utc_now w))
                  US_PER_MINUTE),
       with_self (set_unlock_at (Some (unlock_today (w_clock w) p))) w).
Proof.
  intros Hv Hp. unfold calculate_unlock_at.
  rewrite bind_run, (datetime_now_utc_run w Hv).
  rewrite bind_run. cbn [read].
  rewrite bind_run. unfold lift at 1. fold (unlock_at_entry w). rewrite Hp.
  pose proof (strptime_HM_Ok _ _ Hp) as (_ & _ & _ & Hs & Hu & Htz & Hh & Hmi).
  pose proof (valid_datetime_date _ Hv) as Hdate.
  destruct (w_clock w) as [y mo d h mi s us tz] eqn:Ec.
  destruct p as [py pmo pd ph pmi ps pus ptz].
  cbn [year month day hour minute second microsecond tzinfo] in *. subst ps pus ptz.
  assert (Htime : check_time_fields ph pmi 0 0 = true).
  { unfold check_time_fields.
    repeat (apply andb_true_iff; split); apply Z.leb_le; lia. }
  rewrite bind_run. unfold lift at 1, replace_date, datetime_new, utc_now.
  rewrite Ec. cbn [year month day hour minute second microsecond tzinfo].
  rewrite Hdate, Htime. cbn [andb].
  rewrite bind_run. unfold time_of at 1 2.
  cbn [year month day hour minute second microsecond tzinfo].
  change (time_of (mkDatetime py pmo pd ph pmi 0 0 None)) with (mkTime ph pmi 0 0).
  change (time_of (mkDatetime y mo d h mi s us tz)) with (mkTime h mi s us).
  unfold check_date_fields in Hdate.
  repeat (apply andb_true_iff in Hdate as [Hdate ?]).
  destruct (time_lt (mkTime ph pmi 0 0) (mkTime h mi s us)).
  - unfold lift at 1, replace_day, datetime_new.
    cbn [year month day hour minute second microsecond tzinfo].
    rewrite Htime. unfold check_date_fields.
    assert (H1d : (1 <=? d + 1) = true) by (apply Z.leb_le; lia).
    rewrite Hdate, H3, H2, H1, H1d. cbn [andb].
    destruct (d + 1 <=? _days_in_month y mo) eqn:Edim; [| reflexivity].
    cbn [andb]. rewrite bind_run. unfold lift at 1, replace_tzinfo, datetime_new.
    cbn [year month day hour minute second microsecond tzinfo].
    rewrite Htime. unfold check_date_fields.
    rewrite Hdate, H3, H2, H1, H1d, Edim. cbn [andb].
    reflexivity.
  - unfold mret at 1, M_ret.
    rewrite bind_run. unfold lift at 1, replace_tzinfo, datetime_new.
    cbn [year month day hour minute second microsecond tzinfo].
    rewrite Htime. unfold check_date_fields.
    rewrite Hdate, H3, H2, H1, H0, H. cbn [andb].
    reflexivity.
Qed.

Lemma calculate_unlock_at_bad_clock w :
  valid_datetime (w_clock w) = false ->
  calculate_unlock_at w = (Raise ValueError, w).
Proof.
  intros Hv. unfold calculate_unlock_at.
  rewrite bind_run. unfold datetime_now_utc, replace_tzinfo, datetime_new.
  unfold valid_datetime in Hv. rewrite Hv. reflexivity.
Qed.

Lemma calculate_unlock_at_bad_entry w e :
  strptime_HM (unlock_at_entry w) = Raise e ->
  exists e', calculate_unlock_at w = (Raise e', w).
Proof.
  intros Hp. unfold calculate_unlock_at.
  rewrite bind_run. unfold datetime_now_utc.
  destruct (replace_tzinfo (w_clock w) (Some utc)); [| eauto].
  rewrite bind_run. cbn [read].
  rewrite bind_run. unfold lift at 1. fold (unlock_at_entry w). rewrite Hp. eauto.
Qed.

Lemma instant_unlock_today w p :
  instant (unlock_today (w_clock w) p) - instant (utc_now w)
  = time_us (time_of p) - time_us (time_of (w_clock w)).
Proof.
  unfold instant, unlock_today, utc_now. cbn [tzinfo utcoffset utc].
  rewrite !local_us_split. unfold toordinal, time_of.
  cbn [year month day hour minute second microsecond]. lia.
Qed.

Lemma instant_unlock_next_day w p :
  instant (unlock_next_day (w_clock w) p) - instant (utc_now w)
  = US_PER_DAY + time_us (time_of p) - time_us (time_of (w_clock w)).
Proof.
  unfold instant, unlock_next_day, utc_now. cbn [tzinfo utcoffset utc].
  rewrite !local_us_split. unfold toordinal, time_of, _ymd2ord.
  cbn [year month day hour minute second microsecond]. lia.
Qed.

Lemma parsed_time_us p s :
  strptime_HM s = Ok p ->
  time_us (time_of p) = hour p * (3600 * US_PER_SECOND) + minute p * US_PER_MINUTE
  /\ 0 <= time_us (time_of p) < US_PER_DAY.
Proof.
  intros Hp. apply strptime_HM_Ok in Hp as (_ & _ & _ & Hs & Hu & _ & Hh & Hm).
  unfold time_us, time_of, US_PER_DAY, US_PER_MINUTE, US_PER_SECOND.
  cbn [t_hour t_minute t_second t_microsecond]. rewrite Hs, Hu. lia.
Qed.

Lemma time_lt_clock w p s :
  valid_datetime (w_clock w) = true -> strptime_HM s = Ok p ->
  time_lt (time_of p) (time_of (w_clock w))
  = (time_us (time_of p) <? time_us (time_of (w_clock w))).
Proof.
  intros Hv Hp. apply valid_datetime_time in Hv.
  apply strptime_HM_Ok in Hp as (_ & _ & _ & Hs & Hu & _ & Hh & Hm).
  apply time_lt_spec; unfold time_of; cbn [t_minute t_second t_microsecond]; lia.
Qed.

(** C1.  On the last day of a month (December 31 included), with the
    configured unlock time already past, [calculate_unlock_at] asks for
    day-of-month [day + 1] of the same month, which no calendar has: it
    raises [ValueError] and stores no unlock time, instead of moving to the
    first day of the following month. *)
Theorem calculate_unlock_at_fails_at_month_end (w : world) (p : datetime) :
  valid_datetime (w_clock w) = true ->
  strptime_HM (unlock_at_entry w) = Ok p ->
  last_day_of_month (w_clock w) = true ->
  time_lt (time_of p) (time_of (w_clock w)) = true ->
  calculate_unlock_at w = (Raise ValueError, w)
  /\ forall candidate,
       replace_date p (year (w_clock w)) (month (w_clock w)) (day (w_clock w))
       = Ok candidate ->
       replace_day candidate (day (w_clock w) + 1) = Raise ValueError.
Proof.
  intros Hv Hp Hlast Hlt.
  unfold last_day_of_month in Hlast. apply Z.eqb_eq in Hlast.
  assert (Hd : (day (w_clock w) + 1
                <=? _days_in_month (year (w_clock w)) (month (w_clock w))) = false)
    by (apply Z.leb_gt; lia).
  split.
  - rewrite (calculate_unlock_at_run w p Hv Hp), Hlt, Hd. reflexivity.
  - intros candidate Hc. apply datetime_new_Ok in Hc as [-> _].
    unfold replace_day, datetime_new, check_date_fields.
    cbn [year month day hour minute second microsecond tzinfo].
    rewrite Hd, !andb_false_r. reflexivity.
Qed.

(** C2.  With a well-formed clock and a configuration whose [unlock_at]
    entry parses as HH:MM, [set_unlock_at_as_stop_duration] puts HH:MM on
    today's date; when that time of day is strictly before the current one it
    asks for the next day-of-month.  Where that day exists in the current
    month, the zoned candidate is stored as [unlock_at] and the whole-minute
    span from now to it becomes the stop duration; on the last day of a
    month the request fails with [ValueError] and nothing is stored. *)
Theorem set_unlock_at_as_stop_duration_run (w : world) (p : datetime) :
  valid_datetime (w_clock w) = true ->
  is_Some (w_protection_config w !! "unlock_at") ->
  strptime_HM (unlock_at_entry w) = Ok p ->
  set_unlock_at_as_stop_duration w =
    let now := utc_now w in
    let store u :=
      with_self (fun o => set__stop_duration
                            (Z.quot (instant u - instant now) US_PER_MINUTE)
                            (set_unlock_at (Some u) o)) w in
    if time_lt (time_of p) (time_of (w_clock w)) then
      if negb (last_day_of_month (w_clock w))
      then (Ok tt, store (unlock_next_day (w_clock w) p))
      else (Raise ValueError, w)
    else (Ok tt, store (unlock_today (w_clock w) p)).
Proof.
  intros Hv Hkey Hp. unfold set_unlock_at_as_stop_duration.
  rewrite bind_run. cbn [read]. unfold dict_contains.
  rewrite bool_decide_eq_true_2 by exact Hkey.
  rewrite bind_run, (calculate_unlock_at_run w p Hv Hp).
  cbv zeta. unfold last_day_of_month.
  pose proof (valid_datetime_date _ Hv) as Hdate.
  unfold check_date_fields in Hdate.
  repeat (apply andb_true_iff in Hdate as [Hdate ?]).
  destruct (time_lt (time_of p) (time_of (w_clock w))); [| reflexivity].
  destruct (Z.leb_spec (day (w_clock w) + 1)
                       (_days_in_month (year (w_clock w)) (month (w_clock w))));
    destruct (Z.eqb_spec (day (w_clock w))
                         (_days_in_month (year (w_clock w)) (month (w_clock w))));
    try reflexivity; exfalso; lia.
Qed.

(** C9.  Whenever [calculate_unlock_at] returns, the number of minutes it
    returns is not negative and the unlock time it stored, a UTC datetime, is
    not before the instant read from the clock; the result is 0 when the two
    instants coincide. *)
Theorem calculate_unlock_at_not_in_the_past (w w' : world) (d : Z) :
  calculate_unlock_at w = (Ok d, w') ->
  0 <= d
  /\ exists u, unlock_at (w_self w') = Some u
               /\ tzinfo u = Some utc
               /\ instant (utc_now w) <= instant u
               /\ datetime_gt (utc_now w) u = Ok false
               /\ (instant u = instant (utc_now w) -> d = 0).
Proof.
  intros Hrun.
  destruct (valid_datetime (w_clock w)) eqn:Hv;
    [| rewrite calculate_unlock_at_bad_clock in Hrun by exact Hv; discriminate].
  destruct (strptime_HM (unlock_at_entry w)) as [p | e] eqn:Hp;
    [| destruct (calculate_unlock_at_bad_entry _ _ Hp) as [e' He'];
       rewrite He' in Hrun; discriminate].
  rewrite (calculate_unlock_at_run w p Hv Hp) in Hrun.
  rewrite (time_lt_clock w p _ Hv Hp) in Hrun.
  pose proof (parsed_time_us _ _ Hp) as [_ Hpb].
  pose proof (valid_time_us _ Hv) as Hcb.
  assert (Hfinish : forall u,
             tzinfo u = Some utc ->
             0 <= instant u - instant (utc_now w) ->
             d = Z.quot (instant u - instant (utc_now w)) US_PER_MINUTE ->
             w' = with_self (set_unlock_at (Some u)) w ->
             0 <= d
             /\ exists u, unlock_at (w_self w') = Some u
                          /\ tzinfo u = Some utc
                          /\ instant (utc_now w) <= instant u
                          /\ datetime_gt (utc_now w) u = Ok false
                          /\ (instant u = instant (utc_now w) -> d = 0)).
  { intros u Htz Hge -> ->. split.
    - apply Z.quot_pos; [exact Hge | reflexivity].
    - exists u. split; [reflexivity |]. split; [exact Htz |].
      split; [lia |]. split.
      + unfold datetime_gt, same_awareness. rewrite Htz. cbn [tzinfo utc_now].
        f_equal. apply Z.ltb_ge. lia.
      + intros ->. rewrite Z.sub_diag. reflexivity. }
  revert Hrun.
  destruct (Z.ltb_spec (time_us (time_of p)) (time_us (time_of (w_clock w)))).
  - destruct (_ <=? _); [| discriminate].
    intros [= Hd Hw].
    apply (Hfinish (unlock_next_day (w_clock w) p)); auto.
    rewrite instant_unlock_next_day. lia.
  - intros [= Hd Hw].
    apply (Hfinish (unlock_today (w_clock w) p)); auto.
    rewrite instant_unlock_today. lia.
Qed.

End UnlockAt.

(** ** Construction *)

Section Construction.

Variable timeframe_to_minutes : pyval -> result Z.
Variable int_of_str : string -> result Z.

Lemma dict_contains_lookup (d : gmap string pyval) k :
  dict_contains d k = match d !! k with Some _ => true | None => false end.
Proof.
  unfold dict_contains. destruct (d !! k) eqn:E.
  - apply bool_decide_eq_true_2. eauto.
  - apply bool_decide_eq_false_2. intros [? ?]. discriminate.
Qed.


Lemma init_run (w : world) (v : pyval) (T : Z) :
  w_config w !! "timeframe" = Some v ->
  timeframe_to_minutes v = Ok T ->
  let pc := w_protection_config w in
  __init__ timeframe_to_minutes int_of_str w =
    let w0 := with_self (fun o => set_unlock_at None
                (set__lookback_period_candles None
                   (set__stop_duration_candles None o))) w in
    match py_int int_of_str (stop_entry pc) with
    | Raise e => (Raise e, w0)
    | Ok s =>
        let w1 := with_self (bind_stop_duration T pc s) w0 in
        match py_int int_of_str (lookback_entry pc) with
        | Raise e => (Raise e, w1)
        | Ok l =>
            match set_unlock_at_as_stop_duration
                    (with_self (bind_lookback_period T pc l) w1) with
            | (Ok _, w3) => (Ok tt, with_self set_logging_ready w3)
            | (Raise e, w3) => (Raise e, w3)
            end
        end
    end.
Proof.
  intros Hv HT pc.
  unfold stop_entry, lookback_entry, bind_stop_duration, bind_lookback_period.
  unfold __init__, LoggingMixin___init__.
  unfold mbind, M_bind, mret, M_ret, assign, read, lift.
  cbn [w_config w_protection_config with_self w_self w_log w_clock with_log].
  unfold dict_getitem. rewrite Hv. unfold result_bind. rewrite HT.
  fold pc. cbv zeta.
  destruct (dict_contains pc "stop_duration_candles");
    (destruct (py_int int_of_str (dict_get pc _ _)); [| reflexivity]);
    (destruct (dict_contains pc "lookback_period_candles");
     (destruct (py_int int_of_str (dict_get pc _ _)); [| reflexivity]));
    reflexivity.
Qed.

Lemma bind_lookback_period_stop T pc n o :
  _stop_duration_candles (bind_lookback_period T pc n o) = _stop_duration_candles o
  /\ _stop_duration (bind_lookback_period T pc n o) = _stop_duration o
  /\ unlock_at (bind_lookback_period T pc n o) = unlock_at o.
Proof. unfold bind_lookback_period. destruct (dict_contains _ _); auto. Qed.

Lemma keeps_stop_candles_unlock_step :
  keeps stop_candles set_unlock_at_as_stop_duration.
Proof. apply keeps_set_unlock_at_as_stop_duration; reflexivity. Qed.

(** The candle count the constructor leaves behind. *)
Lemma init_stop_candles (w : world) (v : pyval) (T : Z) :
  w_config w !! "timeframe" = Some v ->
  timeframe_to_minutes v = Ok T ->
  let pc := w_protection_config w in
  stop_candles (__init__ timeframe_to_minutes int_of_str w).2
  = match py_int int_of_str (stop_entry pc) with
    | Ok s => if dict_contains pc "stop_duration_candles" then Some s else None
    | Raise _ => None
    end.
Proof.
  intros Hv HT pc. rewrite (init_run w v T Hv HT). fold pc. cbv zeta.
  destruct (py_int int_of_str (stop_entry pc)) as [s |]; [| reflexivity].
  assert (H1 : forall o,
             _stop_duration_candles o = None ->
             _stop_duration_candles (bind_stop_duration T pc s o)
             = if dict_contains pc "stop_duration_candles" then Some s else None).
  { intros o Ho. unfold bind_stop_duration.
    destruct (dict_contains pc "stop_duration_candles"); [reflexivity | exact Ho]. }
  destruct (py_int int_of_str (lookback_entry pc)) as [l |].
  - pose proof (keeps_stop_candles_unlock_step
                  (with_self (bind_lookback_period T pc l)
                     (with_self (bind_stop_duration T pc s)
                        (with_self (fun o => set_unlock_at None
                           (set__lookback_period_candles None
                              (set__stop_duration_candles None o))) w)))) as K.
    destruct (set_unlock_at_as_stop_duration _) as [[[] | e] w3];
      cbn [snd] in K |- *; unfold stop_candles in *; cbn in K |- *;
      rewrite K, (proj1 (bind_lookback_period_stop _ _ _ _)); apply H1; reflexivity.
  - unfold stop_candles. cbn. apply H1. reflexivity.
Qed.






End Construction.

(** ** The displayed stop duration *)

Section Display.

Variable plural : Z -> string -> string -> string.

Lemma stop_duration_str_candles w n :
  _stop_duration_candles (w_self w) = Some n -> n <> 0 ->
  stop_duration_str plural w = (Ok (count_str plural n "candle" "candles"), w).
Proof.
  intros Hc Hn. unfold stop_duration_str.
  rewrite bind_run. cbn [read]. rewrite Hc. unfold truthy.
  rewrite (proj2 (Z.eqb_neq n 0) Hn). cbn [negb].
  rewrite bind_run. unfold getattr. rewrite Hc. reflexivity.
Qed.

Lemma stop_duration_str_minutes w d :
  truthy (_stop_duration_candles (w_self w)) = false ->
  _stop_duration (w_self w) = Some d ->
  stop_duration_str plural w = (Ok (count_str plural d "minute" "minutes"), w).
Proof.
  intros Hc Hd. unfold stop_duration_str.
  rewrite bind_run. cbn [read]. rewrite Hc.
  rewrite bind_run. unfold getattr. rewrite Hd. reflexivity.
Qed.

(** C8 (as amended).  With a pluralisation helper that gives the singular
    for 1 and the plural for larger counts, [stop_duration_str] renders
    ["<N> candle"] / ["<N> candles"] when [_stop_duration_candles] is set
    and is not zero, and ["<N> minute"] / ["<N> minutes"] over
    [_stop_duration] when it is [None] or zero: 1 candle gives
    ["1 candle"], 2 candles ["2 candles"], 1 minute ["1 minute"] and 60
    minutes ["60 minutes"].  The store is left as it was. *)
Theorem stop_duration_str_spec (w : world) :
  (forall s p, plural 1 s p = s) ->
  (forall n s p, 1 < n -> plural n s p = p) ->
  (forall n, _stop_duration_candles (w_self w) = Some n -> n <> 0 ->
             stop_duration_str plural w
             = (Ok (pretty n +:+ " " +:+ plural n "candle" "candles"), w))
  /\ (forall d, truthy (_stop_duration_candles (w_self w)) = false ->
                _stop_duration (w_self w) = Some d ->
                stop_duration_str plural w
                = (Ok (pretty d +:+ " " +:+ plural d "minute" "minutes"), w))
  /\ (_stop_duration_candles (w_self w) = Some 1 ->
      stop_duration_str plural w = (Ok "1 candle", w))
  /\ (_stop_duration_candles (w_self w) = Some 2 ->
      stop_duration_str plural w = (Ok "2 candles", w))
  /\ (_stop_duration_candles (w_self w) = None ->
      _stop_duration (w_self w) = Some 1 ->
      stop_duration_str plural w = (Ok "1 minute", w))
  /\ (_stop_duration_candles (w_self w) = None ->
      _stop_duration (w_self w) = Some 60 ->
      stop_duration_str plural w = (Ok "60 minutes", w)).
Proof.
  intros Hone Hmany.
  split; [intros n Hc Hn; apply stop_duration_str_candles; assumption |].
  split; [intros d Hc Hd; apply stop_duration_str_minutes; assumption |].
  split; [| split; [| split]].
  - intros Hc. rewrite (stop_duration_str_candles w 1 Hc) by discriminate.
    unfold count_str. rewrite Hone. reflexivity.
  - intros Hc. rewrite (stop_duration_str_candles w 2 Hc) by discriminate.
    unfold count_str. rewrite Hmany by reflexivity. reflexivity.
  - intros Hc Hd. rewrite (stop_duration_str_minutes w 1) by (rewrite ?Hc; auto).
    unfold count_str. rewrite Hone. reflexivity.
  - intros Hc Hd. rewrite (stop_duration_str_minutes w 60) by (rewrite ?Hc; auto).
    unfold count_str. rewrite Hmany by reflexivity. reflexivity.
Qed.

End Display.

(** * Worked instances *)

Section Instances.

Import Sample.

(** January 31, 23:00, unlock time 22:00: the constructor's unlock step
    raises, although the day after January 31 is a date like any other. *)
Lemma calculate_unlock_at_fails_at_month_end_witness :
  let w := store unlock_2200 (naive 2024 1 31 23 0 0) in
  valid_datetime (w_clock w) = true
  /\ strptime_HM (unlock_at_entry w) = Ok (parsed 22 0)
  /\ last_day_of_month (w_clock w) = true
  /\ time_lt (time_of (parsed 22 0)) (time_of (w_clock w)) = true
  /\ calculate_unlock_at w = (Raise ValueError, w)
  /\ replace_day (naive 2024 1 31 22 0 0) 32 = Raise ValueError.
Proof.
  cbv zeta.
  assert (H1 : valid_datetime (w_clock (store unlock_2200 (naive 2024 1 31 23 0 0))) = true)
    by (vm_compute; reflexivity).
  assert (H2 : strptime_HM (unlock_at_entry (store unlock_2200 (naive 2024 1 31 23 0 0)))
               = Ok (parsed 22 0)) by (vm_compute; reflexivity).
  assert (H3 : last_day_of_month (w_clock (store unlock_2200 (naive 2024 1 31 23 0 0)))
               = true) by (vm_compute; reflexivity).
  assert (H4 : time_lt (time_of (parsed 22 0))
                 (time_of (w_clock (store unlock_2200 (naive 2024 1 31 23 0 0)))) = true)
    by (vm_compute; reflexivity).
  split; [exact H1 |]. split; [exact H2 |]. split; [exact H3 |]. split; [exact H4 |].
  destruct (calculate_unlock_at_fails_at_month_end _ _ H1 H2 H3 H4) as [Hrun Hday].
  split; [exact Hrun |].
  apply (Hday (naive 2024 1 31 22 0 0)). vm_compute. reflexivity.
Defined.

Example day_after_january_31 :
  datetime_add (zoned 2024 1 31 22 0 0) (mkDelta US_PER_DAY) = Ok (zoned 2024 2 1 22 0 0).
Proof. vm_compute. reflexivity. Qed.

(** December 31, 10:00, unlock time 09:00: instead of 09:00 on January 1
    and 1380 minutes, a [ValueError]. *)
Lemma set_unlock_at_as_stop_duration_run_witness :
  let w := store unlock_0900 (naive 2024 12 31 10 0 0) in
  valid_datetime (w_clock w) = true
  /\ is_Some (w_protection_config w !! "unlock_at")
  /\ strptime_HM (unlock_at_entry w) = Ok (parsed 9 0)
  /\ set_unlock_at_as_stop_duration w = (Raise ValueError, w).
Proof.
  cbv zeta.
  assert (H1 : valid_datetime (w_clock (store unlock_0900 (naive 2024 12 31 10 0 0))) = true)
    by (vm_compute; reflexivity).
  assert (H2 : is_Some (w_protection_config (store unlock_0900 (naive 2024 12 31 10 0 0))
                          !! "unlock_at"))
    by (exists (PyStr "09:00"); vm_compute; reflexivity).
  assert (H3 : strptime_HM (unlock_at_entry (store unlock_0900 (naive 2024 12 31 10 0 0)))
               = Ok (parsed 9 0)) by (vm_compute; reflexivity).
  split; [exact H1 |]. split; [exact H2 |]. split; [exact H3 |].
  rewrite (set_unlock_at_as_stop_duration_run _ _ H1 H2 H3).
  vm_compute. reflexivity.
Defined.

(** The same configuration in mid-month: 09:00 on the next day, 1380 minutes. *)
Example unlock_at_0900_at_1000 :
  let w := store unlock_0900 (naive 2024 1 15 10 0 0) in
  set_unlock_at_as_stop_duration w
  = (Ok tt, with_self (fun o => set__stop_duration 1380
                                  (set_unlock_at (Some (zoned 2024 1 16 9 0 0)) o)) w).
Proof. vm_compute. reflexivity. Qed.



(** C4, as stated, fails: a zoneless and a zoned close date cannot be
    compared, and the last minute of year 9999 has no successor. *)
Lemma calculate_lock_end_counterexample :
  (exists t, t ∈ mixed_trades /\ is_Some (close_date t))
  /\ calculate_lock_end mixed_trades 30 = Raise TypeError
  /\ (exists t, t ∈ last_minute_trades /\ is_Some (close_date t))
  /\ calculate_lock_end last_minute_trades 30 = Raise OverflowError.
Proof.
  split; [eexists; split; [left | eexists; reflexivity] |].
  split; [vm_compute; reflexivity |].
  split; [eexists; split; [left | eexists; reflexivity] |].
  vm_compute. reflexivity.
Qed.

Lemma calculate_lock_end_spec_witness :
  (exists t, t ∈ closed_trades /\ is_Some (close_date t))
  /\ forallb valid_datetime (closed_dates closed_trades) = true
  /\ uniform_awareness (closed_dates closed_trades) = true
  /\ exists max_date until,
       calculate_lock_end closed_trades 30 = Ok until
       /\ max_date ∈ closed_dates closed_trades
       /\ (forall d, d ∈ closed_dates closed_trades -> instant d <= instant max_date)
       /\ instant until = instant max_date + 30 * US_PER_MINUTE
       /\ tzinfo until = Some (default utc (tzinfo max_date))
       /\ valid_datetime until = true.
Proof.
  assert (H1 : exists t, t ∈ closed_trades /\ is_Some (close_date t))
    by (eexists; split; [left | eexists; reflexivity]).
  assert (H2 : forallb valid_datetime (closed_dates closed_trades) = true)
    by (vm_compute; reflexivity).
  assert (H3 : uniform_awareness (closed_dates closed_trades) = true)
    by (vm_compute; reflexivity).
  split; [exact H1 |]. split; [exact H2 |]. split; [exact H3 |].
  apply (calculate_lock_end_spec closed_trades 30 H1 H2 H3).
  intros d Hd _. cbn in Hd.
  repeat (apply elem_of_cons in Hd as [-> | Hd]);
    [ .. | inversion Hd ];
    (split; [apply Z.leb_le | apply Z.ltb_lt]; vm_compute; reflexivity).
Defined.

Example calculate_lock_end_three_dates :
  calculate_lock_end closed_trades 30 = Ok (zoned 2024 1 31 23 30 0).
Proof. vm_compute. reflexivity. Qed.



Example calculate_timespan_ninety_minutes :
  datetime_add (zoned 2024 1 31 23 0 0) (mkDelta (90 * US_PER_MINUTE))
  = Ok (zoned 2024 2 1 0 30 0)
  /\ calculate_timespan (zoned 2024 1 31 23 0 0) (zoned 2024 2 1 0 30 0) = Ok 90.
Proof. split; vm_compute; reflexivity. Qed.

Lemma calculate_lock_end_no_closed_trade_witness :
  Forall (fun t => close_date t = None) open_trades
  /\ calculate_lock_end open_trades 30 = Raise ValueError
  /\ raises (calculate_lock_end open_trades 30).
Proof.
  assert (H : Forall (fun t => close_date t = None) open_trades)
    by (repeat constructor).
  split; [exact H |].
  exact (calculate_lock_end_no_closed_trade open_trades 30 H).
Defined.


(** C8, as stated, fails: an instance configured with zero candles is
    candle-based, yet its stop duration is displayed in minutes. *)
Lemma stop_duration_str_counterexample :
  let r := construct zero_candles (naive 2024 1 15 10 0 0) in
  r.1 = Ok tt
  /\ _stop_duration_candles (w_self r.2) = Some 0
  /\ (stop_duration_str sample_plural r.2).1 = Ok "0 minutes"
  /\ (stop_duration_str sample_plural r.2).1
     <> Ok (pretty 0 +:+ " " +:+ sample_plural 0 "candle" "candles").
Proof. vm_compute. repeat split; discriminate. Qed.

Lemma stop_duration_str_spec_witness :
  let w := (construct two_candles (naive 2024 1 15 10 0 0)).2 in
  (forall s p, sample_plural 1 s p = s)
  /\ (forall n s p, 1 < n -> sample_plural n s p = p)
  /\ _stop_duration_candles (w_self w) = Some 2
  /\ stop_duration_str sample_plural w = (Ok "2 candles", w).
Proof.
  cbv zeta.
  assert (H1 : forall s p, sample_plural 1 s p = s) by reflexivity.
  assert (H2 : forall n s p, 1 < n -> sample_plural n s p = p).
  { intros n s p Hn. unfold sample_plural.
    destruct (Z.eqb_spec n 1); [lia | reflexivity]. }
  assert (H3 : _stop_duration_candles
                 (w_self (construct two_candles (naive 2024 1 15 10 0 0)).2) = Some 2)
    by (vm_compute; reflexivity).
  split; [exact H1 |]. split; [exact H2 |]. split; [exact H3 |].
  exact (proj1 (proj2 (proj2 (proj2
           (stop_duration_str_spec sample_plural _ H1 H2)))) H3).
Defined.

(** At 09:00 sharp with unlock time 09:00, the unlock time is now and the
    stop duration is 0 minutes. *)
Lemma calculate_unlock_at_not_in_the_past_witness :
  let w := store unlock_0900 (naive 2024 1 15 9 0 0) in
  let w' := with_self (set_unlock_at (Some (zoned 2024 1 15 9 0 0))) w in
  calculate_unlock_at w = (Ok 0, w')
  /\ 0 <= 0
  /\ exists u, unlock_at (w_self w') = Some u
               /\ tzinfo u = Some utc
               /\ instant (utc_now w) <= instant u
               /\ datetime_gt (utc_now w) u = Ok false
               /\ (instant u = instant (utc_now w) -> 0 = 0).
Proof.
  cbv zeta.
  assert (H : calculate_unlock_at (store unlock_0900 (naive 2024 1 15 9 0 0))
              = (Ok 0, with_self (set_unlock_at (Some (zoned 2024 1 15 9 0 0)))
                         (store unlock_0900 (naive 2024 1 15 9 0 0))))
    by (vm_compute; reflexivity).
  split; [exact H |].
  exact (calculate_unlock_at_not_in_the_past _ _ _ H).
Defined.

End Instances.

(** * Further properties *)

(** ** The static helpers, continued *)

Section StaticHelpersMore.

Lemma same_awareness_cong a b c :
  same_awareness a b = true -> same_awareness a c = same_awareness b c.
Proof.
  unfold same_awareness. destruct (tzinfo a), (tzinfo b), (tzinfo c); congruence.
Qed.

Lemma max_from_Ok_inv xs : forall cur m,
  max_from cur xs = Ok m ->
  m ∈ cur :: xs
  /\ forallb (same_awareness cur) xs = true
  /\ forall x, x ∈ cur :: xs -> instant x <= instant m.
Proof.
  induction xs as [| x rest IH]; intros cur m Hm.
  - injection Hm as <-. split; [left |]. split; [reflexivity |].
    intros y Hy. apply list_elem_of_singleton in Hy as ->. lia.
  - cbn [max_from] in Hm. unfold datetime_gt, mbind, result_bind in Hm.
    destruct (same_awareness x cur) eqn:Hx; [| discriminate].
    rewrite same_awareness_sym in Hx.
    apply IH in Hm as (Hin & Hu & Hmax).
    assert (Hc : instant cur <= instant m /\ instant x <= instant m).
    { pose proof (Hmax _ (list_elem_of_here _ _)) as H0.
      destruct (Z.ltb_spec (instant cur) (instant x)); lia. }
    split; [| split].
    + apply elem_of_cons in Hin as [-> | Hin].
      * destruct (instant cur <? instant x); [right; left | left].
      * right; right; exact Hin.
    + cbn [forallb]. rewrite Hx. cbn [andb].
      destruct (instant cur <? instant x); [| exact Hu].
      apply forallb_forall. intros y Hy. rewrite forallb_forall in Hu.
      rewrite (same_awareness_cong cur x y Hx). auto.
    + intros y Hy.
      apply elem_of_cons in Hy as [-> | Hy]; [lia |].
      apply elem_of_cons in Hy as [-> | Hy]; [lia |].
      apply Hmax. right. exact Hy.
Qed.

Lemma py_max_Ok_inv xs m :
  py_max xs = Ok m ->
  m ∈ xs /\ uniform_awareness xs = true /\ forall x, x ∈ xs -> instant x <= instant m.
Proof.
  destruct xs as [| x rest]; [discriminate |]. apply max_from_Ok_inv.
Qed.

Lemma max_from_mixed xs : forall cur,
  forallb (same_awareness cur) xs = false -> max_from cur xs = Raise TypeError.
Proof.
  induction xs as [| x rest IH]; intros cur Hu; [discriminate |].
  cbn [forallb] in Hu. cbn [max_from]. unfold datetime_gt, mbind, result_bind.
  rewrite same_awareness_sym.
  destruct (same_awareness cur x) eqn:Hx; [| reflexivity].
  cbn [andb] in Hu. apply IH.
  destruct (instant cur <? instant x); [| exact Hu].
  rewrite <- Hu. clear -Hx.
  induction rest as [| y rest IH]; [reflexivity |].
  cbn [forallb]. rewrite IH, (same_awareness_cong cur x y Hx). reflexivity.
Qed.

(** What a returned lock end is made of. *)
Lemma calculate_lock_end_Ok_inv trades stop_minutes until :
  calculate_lock_end trades stop_minutes = Ok until ->
  exists max_date,
    py_max (closed_dates trades) = Ok max_date
    /\ instant until = instant max_date + stop_minutes * US_PER_MINUTE
    /\ tzinfo until = Some (default utc (tzinfo max_date))
    /\ valid_datetime until = true.
Proof.
  unfold calculate_lock_end, mbind, result_bind.
  destruct (py_max (closed_dates trades)) as [mx |]; [| discriminate].
  intros H. exists mx. split; [reflexivity |].
  set (mx' := mkDatetime (year mx) (month mx) (day mx) (hour mx) (minute mx)
                         (second mx) (microsecond mx)
                         (Some (default utc (tzinfo mx)))).
  assert (Hnorm : forall r, match tzinfo mx with
                            | None => replace_tzinfo mx (Some utc)
                            | Some _ => Ok mx
                            end = Ok r -> r = mx').
  { intros r. subst mx'. destruct mx as [y mo d h mi s us [tz |]]; cbn.
    - intros [= <-]. reflexivity.
    - intros Hr. apply datetime_new_Ok in Hr as [-> _]. reflexivity. }
  destruct (match tzinfo mx with None => _ | Some _ => _ end) as [r |];
    [| discriminate].
  rewrite (Hnorm r eq_refl) in H. clear Hnorm r.
  unfold timedelta_minutes, timedelta_of_us in H.
  destruct (_ && _) in H; [| discriminate].
  pose proof (datetime_add_Ok_inv _ _ _ H) as Hr.
  destruct (datetime_add_spec _ _ Hr) as (r & Hr' & Hus & Htz & Hv).
  rewrite H in Hr'. injection Hr' as <-.
  split; [| split; [exact Htz | exact Hv]].
  cbn [total_microseconds] in Hus.
  assert (Hl' : local_us mx' = local_us mx) by reflexivity.
  rewrite Hl' in Hus. unfold instant. rewrite Htz. subst mx'. cbn [tzinfo].
  destruct (tzinfo mx) as [tz |]; cbn; lia.
Qed.

Lemma datetime_add_overflow dt delta :
  ~ representable (local_us dt + total_microseconds delta) ->
  datetime_add dt delta = Raise OverflowError.
Proof.
  unfold datetime_add, representable.
  set (total := local_us dt + total_microseconds delta). intros Hn.
  destruct (Z.ltb_spec 0 (total / US_PER_DAY)); cbn [andb]; [| reflexivity].
  destruct (Z.leb_spec (total / US_PER_DAY) _MAXORDINAL); [| reflexivity].
  destruct Hn. unfold US_PER_DAY, US_PER_SECOND, _MAXORDINAL in *.
  Z.div_mod_to_equations. lia.
Qed.

Lemma timedelta_minutes_error m e :
  timedelta_minutes m = Raise e -> e = OverflowError.
Proof.
  unfold timedelta_minutes, timedelta_of_us. destruct (_ && _); congruence.
Qed.

Lemma timedelta_minutes_Ok m delta :
  timedelta_minutes m = Ok delta -> total_microseconds delta = m * US_PER_MINUTE.
Proof.
  unfold timedelta_minutes, timedelta_of_us. destruct (_ && _); [| discriminate].
  intros [= <-]. reflexivity.
Qed.


Lemma calculate_timespan_Ok_inv a b q :
  calculate_timespan a b = Ok q ->
  same_awareness a b = true /\ q = Z.quot (instant b - instant a) US_PER_MINUTE.
Proof.
  unfold calculate_timespan, datetime_sub, mbind, result_bind, mret, result_ret.
  rewrite (same_awareness_sym b a).
  destruct (same_awareness a b); [| discriminate].
  intros [= <-]. auto.
Qed.

Lemma calculate_timespan_run a b :
  same_awareness a b = true ->
  calculate_timespan a b = Ok (Z.quot (instant b - instant a) US_PER_MINUTE).
Proof.
  intros H.
  unfold calculate_timespan, datetime_sub, mbind, result_bind, mret, result_ret.
  rewrite same_awareness_sym, H. reflexivity.
Qed.

(** X1.  Whenever [calculate_lock_end] returns, the lock end is a
    well-formed datetime that carries a zone, and it lies [stop_minutes]
    minutes after the close date of every closed trade or later. *)
Theorem calculate_lock_end_covers_every_close
    (trades : list LocalTrade) (stop_minutes : Z) (until : datetime) :
  calculate_lock_end trades stop_minutes = Ok until ->
  is_Some (tzinfo until)
  /\ valid_datetime until = true
  /\ forall d, d ∈ closed_dates trades ->
               instant d + stop_minutes * US_PER_MINUTE <= instant until.
Proof.
  intros H. apply calculate_lock_end_Ok_inv in H as (mx & Hmx & Hi & Htz & Hv).
  apply py_max_Ok_inv in Hmx as (_ & _ & Hmax).
  split; [rewrite Htz; eauto |]. split; [exact Hv |].
  intros d Hd. specialize (Hmax d Hd). lia.
Qed.

(** X2.  The order of the trades does not matter: when
    [calculate_lock_end] returns for a list of trades and for a
    rearrangement of it, the two lock ends are the same instant. *)
Theorem calculate_lock_end_order_irrelevant
    (trades trades' : list LocalTrade) (stop_minutes : Z) (until until' : datetime) :
  trades ≡ₚ trades' ->
  calculate_lock_end trades stop_minutes = Ok until ->
  calculate_lock_end trades' stop_minutes = Ok until' ->
  instant until = instant until'.
Proof.
  intros HP H H'.
  apply calculate_lock_end_Ok_inv in H as (mx & Hmx & Hi & _).
  apply calculate_lock_end_Ok_inv in H' as (mx' & Hmx' & Hi' & _).
  apply py_max_Ok_inv in Hmx as (Hin & _ & Hmax).
  apply py_max_Ok_inv in Hmx' as (Hin' & _ & Hmax').
  assert (HPc : closed_dates trades ≡ₚ closed_dates trades')
    by (unfold closed_dates; rewrite HP; reflexivity).
  assert (instant mx <= instant mx') by (apply Hmax'; rewrite <- HPc; exact Hin).
  assert (instant mx' <= instant mx) by (apply Hmax; rewrite HPc; exact Hin').
  lia.
Qed.

(** X3.  When the close dates mix zoneless and zoned datetimes,
    [calculate_lock_end] raises [TypeError], whatever the stop duration. *)
Theorem calculate_lock_end_mixed_awareness
    (trades : list LocalTrade) (stop_minutes : Z) :
  uniform_awareness (closed_dates trades) = false ->
  calculate_lock_end trades stop_minutes = Raise TypeError.
Proof.
  intros Hu. unfold calculate_lock_end, py_max.
  destruct (closed_dates trades) as [| x rest]; [discriminate |].
  rewrite (max_from_mixed rest x Hu). reflexivity.
Qed.

(** X4.  When the close dates are well formed, all zoned or all zoneless,
    and the latest of them moved by [stop_minutes] minutes leaves the range
    of dates a datetime can hold, [calculate_lock_end] raises
    [OverflowError]. *)
Theorem calculate_lock_end_out_of_range
    (trades : list LocalTrade) (stop_minutes : Z) :
  (exists t, t ∈ trades /\ is_Some (close_date t)) ->
  forallb valid_datetime (closed_dates trades) = true ->
  uniform_awareness (closed_dates trades) = true ->
  (forall d, d ∈ closed_dates trades ->
             (forall d', d' ∈ closed_dates trades -> instant d' <= instant d) ->
             ~ representable (local_us d + stop_minutes * US_PER_MINUTE)) ->
  calculate_lock_end trades stop_minutes = Raise OverflowError.
Proof.
  intros (t0 & Ht0 & [d0 Hd0]) Hvalid Hu Hrange.
  assert (Hne : closed_dates trades <> []).
  { intros E. assert (Hin : d0 ∈ closed_dates trades)
      by (apply closed_dates_elem; eauto).
    rewrite E in Hin. inversion Hin. }
  destruct (py_max_spec _ Hne Hu) as (mx & Hmx & Hin & Hmax).
  specialize (Hrange mx Hin Hmax).
  assert (Hv : valid_datetime mx = true).
  { rewrite forallb_forall in Hvalid. apply Hvalid, list_elem_of_In, Hin. }
  unfold calculate_lock_end, mbind, result_bind. rewrite Hmx.
  set (mx' := mkDatetime (year mx) (month mx) (day mx) (hour mx) (minute mx)
                         (second mx) (microsecond mx)
                         (Some (default utc (tzinfo mx)))).
  assert (Hnorm : match tzinfo mx with
                  | None => replace_tzinfo mx (Some utc)
                  | Some _ => Ok mx
                  end = Ok mx').
  { subst mx'. destruct mx as [y mo d h mi s us [tz |]]; cbn.
    - reflexivity.
    - apply datetime_new_valid. exact Hv. }
  rewrite Hnorm.
  destruct (timedelta_minutes stop_minutes) as [delta | e] eqn:Ed.
  - apply datetime_add_overflow.
    rewrite (timedelta_minutes_Ok _ _ Ed). exact Hrange.
  - rewrite (timedelta_minutes_error _ _ Ed). reflexivity.
Qed.

(** X5.  Swapping the two arguments of [calculate_timespan] negates the
    result: a span counted backwards has the same number of whole minutes. *)
Theorem calculate_timespan_swap (a b : datetime) (q : Z) :
  calculate_timespan a b = Ok q -> calculate_timespan b a = Ok (- q).
Proof.
  intros H. apply calculate_timespan_Ok_inv in H as [Haw ->].
  rewrite calculate_timespan_run by (rewrite same_awareness_sym; exact Haw).
  f_equal. rewrite <- Z.quot_opp_l by discriminate. f_equal. lia.
Qed.

(** X6.  [calculate_timespan] grows with its end: from the same start, a
    later end never gives fewer minutes. *)
Theorem calculate_timespan_monotone (start_time e1 e2 : datetime) (q1 q2 : Z) :
  calculate_timespan start_time e1 = Ok q1 ->
  calculate_timespan start_time e2 = Ok q2 ->
  instant e1 <= instant e2 ->
  q1 <= q2.
Proof.
  intros H1 H2 Hle.
  apply calculate_timespan_Ok_inv in H1 as [_ ->].
  apply calculate_timespan_Ok_inv in H2 as [_ ->].
  apply Z.quot_le_mono; [reflexivity | lia].
Qed.


(** X8.  The lock end is zoned even when the close dates are not: measuring
    from a zoneless close date to the lock end with [calculate_timespan]
    raises [TypeError], while from a zoned latest close date it gives back
    [stop_minutes]. *)
Theorem calculate_timespan_to_lock_end
    (trades : list LocalTrade) (stop_minutes : Z) (until d : datetime) :
  calculate_lock_end trades stop_minutes = Ok until ->
  d ∈ closed_dates trades ->
  (tzinfo d = None -> calculate_timespan d until = Raise TypeError)
  /\ (is_Some (tzinfo d) ->
      (forall d', d' ∈ closed_dates trades -> instant d' <= instant d) ->
      calculate_timespan d until = Ok stop_minutes).
Proof.
  intros H Hd. apply calculate_lock_end_Ok_inv in H as (mx & Hmx & Hi & Htz & _).
  apply py_max_Ok_inv in Hmx as (Hin & _ & Hmax).
  split.
  - intros Hn.
    unfold calculate_timespan, datetime_sub, same_awareness, mbind, result_bind.
    rewrite Htz, Hn. reflexivity.
  - intros [tz Hz] Hlatest.
    assert (instant d = instant mx).
    { pose proof (Hmax d Hd). pose proof (Hlatest mx Hin). lia. }
    rewrite calculate_timespan_run
      by (unfold same_awareness; rewrite Htz, Hz; reflexivity).
    f_equal. replace (instant until - instant d) with (stop_minutes * US_PER_MINUTE) by lia.
    apply Z.quot_mul. discriminate.
Qed.

End StaticHelpersMore.

(** ** The unlock time, continued *)

Section UnlockAtMore.


Lemma calculate_unlock_at_Ok_inv w d w' :
  calculate_unlock_at w = (Ok d, w') ->
  exists p u,
    valid_datetime (w_clock w) = true
    /\ strptime_HM (unlock_at_entry w) = Ok p
    /\ (u = unlock_today (w_clock w) p \/ u = unlock_next_day (w_clock w) p)
    /\ w' = with_self (set_unlock_at (Some u)) w
    /\ d = Z.quot (instant u - instant (utc_now w)) US_PER_MINUTE
    /\ 0 <= instant u - instant (utc_now w) < US_PER_DAY.
Proof.
  intros Hrun.
  destruct (valid_datetime (w_clock w)) eqn:Hv;
    [| rewrite calculate_unlock_at_bad_clock in Hrun by exact Hv; discriminate].
  destruct (strptime_HM (unlock_at_entry w)) as [p | e] eqn:Hp;
    [| destruct (calculate_unlock_at_bad_entry _ _ Hp) as [e' He'];
       rewrite He' in Hrun; discriminate].
  rewrite (calculate_unlock_at_run w p Hv Hp) in Hrun.
  rewrite (time_lt_clock w p _ Hv Hp) in Hrun.
  pose proof (parsed_time_us _ _ Hp) as [_ Hpb].
  pose proof (valid_time_us _ Hv) as Hcb.
  exists p. revert Hrun.
  destruct (Z.ltb_spec (time_us (time_of p)) (time_us (time_of (w_clock w)))).
  - destruct (_ <=? _); [| discriminate].
    intros [= <- <-]. exists (unlock_next_day (w_clock w) p).
    rewrite instant_unlock_next_day.
    split; [reflexivity |]. split; [reflexivity |]. split; [right; reflexivity |].
    split; [reflexivity |]. split; [reflexivity |]. lia.
  - intros [= <- <-]. exists (unlock_today (w_clock w) p).
    rewrite instant_unlock_today.
    split; [reflexivity |]. split; [reflexivity |]. split; [left; reflexivity |].
    split; [reflexivity |]. split; [reflexivity |]. lia.
Qed.

(** X9.  Whenever [calculate_unlock_at] returns, the unlock time it stored
    falls on a whole minute less than 24 hours ahead of the clock, and the
    result is the number of whole minutes until then, 1439 at most. *)
Theorem calculate_unlock_at_within_a_day (w w' : world) (d : Z) :
  calculate_unlock_at w = (Ok d, w') ->
  d <= 1439
  /\ exists u, unlock_at (w_self w') = Some u
               /\ second u = 0 /\ microsecond u = 0
               /\ instant u - instant (utc_now w) < US_PER_DAY
               /\ d * US_PER_MINUTE <= instant u - instant (utc_now w)
                  < (d + 1) * US_PER_MINUTE.
Proof.
  intros H.
  apply calculate_unlock_at_Ok_inv in H as (p & u & _ & Hp & Hu & -> & -> & Hgap).
  apply strptime_HM_Ok in Hp as (_ & _ & _ & Hs & Hus & _).
  set (gap := instant u - instant (utc_now w)) in *.
  destruct (quot_truncates gap) as [Hq _].
  pose proof (Z.quot_pos gap US_PER_MINUTE ltac:(lia) ltac:(reflexivity)) as Hq0.
  change US_PER_DAY with 86400000000 in *. change US_PER_MINUTE with 60000000 in *.
  split; [lia |].
  exists u. split; [reflexivity |].
  split; [destruct Hu as [-> | ->]; exact Hs |].
  split; [destruct Hu as [-> | ->]; exact Hus |].
  lia.
Qed.

(** Every canonical spelling parses to its hour and minute. *)
Lemma strptime_HM_canonical h mi :
  0 <= h <= 23 -> 0 <= mi <= 59 ->
  strptime_HM (HH_MM h mi) = Ok (mkDatetime 1900 1 1 h mi 0 0 None).
Proof.
  intros Hh Hmi.
  pose (ok := fun a b : nat =>
    match strptime_HM (HH_MM (Z.of_nat a) (Z.of_nat b)) with
    | Ok p => (hour p =? Z.of_nat a) && (minute p =? Z.of_nat b)
    | Raise _ => false
    end).
  assert (Hall : forallb (fun a => forallb (ok a) (seq 0 60)) (seq 0 24) = true)
    by (vm_compute; reflexivity).
  rewrite forallb_forall in Hall.
  specialize (Hall (Z.to_nat h) ltac:(apply in_seq; lia)).
  rewrite forallb_forall in Hall.
  specialize (Hall (Z.to_nat mi) ltac:(apply in_seq; lia)).
  unfold ok in Hall. rewrite !Z2Nat.id in Hall by lia.
  destruct (strptime_HM (HH_MM h mi)) as [p |] eqn:Hp; [| discriminate].
  apply andb_true_iff in Hall as [H1 H2].
  apply Z.eqb_eq in H1, H2.
  apply strptime_HM_Ok in Hp as (Hy & Hmo & Hd & Hs & Hus & Htz & _).
  destruct p. cbn in *. congruence.
Qed.

(** X10.  The configured unlock time comes back as written: with
    [unlock_at] given in the two-digit form HH:MM, once
    [calculate_unlock_at] has returned, [unlock_at_str] yields that very
    string and leaves the store alone. *)
Theorem unlock_at_str_round_trip (w w' : world) (h mi d : Z) :
  0 <= h <= 23 -> 0 <= mi <= 59 ->
  w_protection_config w !! "unlock_at" = Some (PyStr (HH_MM h mi)) ->
  calculate_unlock_at w = (Ok d, w') ->
  unlock_at_str w' = (Ok (Some (HH_MM h mi)), w').
Proof.
  intros Hh Hmi Hcfg Hrun.
  apply calculate_unlock_at_Ok_inv in Hrun as (p & u & _ & Hp & Hu & -> & _).
  unfold unlock_at_entry, dict_get in Hp. rewrite Hcfg in Hp. cbn [py_str] in Hp.
  rewrite (strptime_HM_canonical h mi Hh Hmi) in Hp. injection Hp as <-.
  unfold unlock_at_str. rewrite bind_run. cbn.
  destruct Hu as [-> | ->]; reflexivity.
Qed.

(** X18.  Whatever spelling the configuration uses, the stored unlock time
    carries the hour and minute that were parsed, and [unlock_at_str] shows
    them zero-padded to two digits each. *)
Theorem unlock_at_str_is_canonical (w w' : world) (d : Z) :
  calculate_unlock_at w = (Ok d, w') ->
  exists p u,
    strptime_HM (unlock_at_entry w) = Ok p
    /\ unlock_at (w_self w') = Some u
    /\ hour u = hour p /\ minute u = minute p
    /\ 0 <= hour p <= 23 /\ 0 <= minute p <= 59
    /\ unlock_at_str w' = (Ok (Some (HH_MM (hour p) (minute p))), w').
Proof.
  intros Hrun.
  apply calculate_unlock_at_Ok_inv in Hrun as (p & u & _ & Hp & Hu & -> & _).
  exists p, u. split; [exact Hp |].
  apply strptime_HM_Ok in Hp as (_ & _ & _ & _ & _ & _ & Hh & Hmi).
  split; [reflexivity |].
  split; [destruct Hu as [-> | ->]; reflexivity |].
  split; [destruct Hu as [-> | ->]; reflexivity |].
  split; [exact Hh |]. split; [exact Hmi |].
  unfold unlock_at_str. rewrite bind_run. cbn.
  destruct Hu as [-> | ->]; reflexivity.
Qed.

End UnlockAtMore.

(** ** Construction, continued *)

Section ConstructionMore.

Variable timeframe_to_minutes : pyval -> result Z.
Variable int_of_str : string -> result Z.
Variable plural : Z -> string -> string -> string.


Lemma bind_stop_duration_other T pc n o :
  unlock_at (bind_stop_duration T pc n o) = unlock_at o
  /\ _lookback_period (bind_stop_duration T pc n o) = _lookback_period o
  /\ _lookback_period_candles (bind_stop_duration T pc n o) = _lookback_period_candles o.
Proof. unfold bind_stop_duration. destruct (dict_contains _ _); auto. Qed.


(** X12.  Without a usable timeframe nothing is resolved: when looking up
    [config["timeframe"]] or converting it raises, the constructor raises
    the same exception at once, a [KeyError] for a missing key, and neither
    window length is bound. *)
Theorem init_without_timeframe (w : world) (e : exn) :
  (v ← dict_getitem (w_config w) "timeframe"; timeframe_to_minutes v) = Raise e ->
  __init__ timeframe_to_minutes int_of_str w = (Raise e, unbound w)
  /\ _stop_duration (w_self (__init__ timeframe_to_minutes int_of_str w).2) = _stop_duration (w_self w)
  /\ _lookback_period (w_self (__init__ timeframe_to_minutes int_of_str w).2) = _lookback_period (w_self w)
  /\ (w_config w !! "timeframe" = None -> e = KeyError).
Proof.
  intros Htf.
  assert (Hrun : __init__ timeframe_to_minutes int_of_str w = (Raise e, unbound w)).
  { unfold __init__.
    unfold mbind at 1 2 3 4 5 6. unfold M_bind, assign, read, lift.
    cbn [w_config w_protection_config with_self w_self w_log w_clock].
    rewrite Htf. reflexivity. }
  rewrite Hrun. split; [reflexivity |]. split; [reflexivity |]. split; [reflexivity |].
  intros Hnone. unfold dict_getitem in Htf. rewrite Hnone in Htf.
  cbn in Htf. congruence.
Qed.

Lemma bind_lookback_period_binds T pc n o :
  _lookback_period (bind_lookback_period T pc n o)
  = Some (if dict_contains pc "lookback_period_candles" then T * n else n)
  /\ _lookback_period_candles (bind_lookback_period T pc n o)
     = if dict_contains pc "lookback_period_candles" then Some n
       else _lookback_period_candles o.
Proof. unfold bind_lookback_period. destruct (dict_contains _ _); auto. Qed.

Lemma bind_stop_duration_binds T pc n o :
  _stop_duration (bind_stop_duration T pc n o)
  = Some (if dict_contains pc "stop_duration_candles" then T * n else n).
Proof. unfold bind_stop_duration. destruct (dict_contains _ _); auto. Qed.

Lemma keeps_lookback_unlock_step :
  keeps (fun w => (_lookback_period_candles (w_self w), _lookback_period (w_self w)))
        set_unlock_at_as_stop_duration.
Proof. apply keeps_set_unlock_at_as_stop_duration; reflexivity. Qed.

(** The lookback window the constructor leaves behind, once the stop entry
    has converted, in every outcome of the later steps. *)
Lemma init_lookback_fields (w : world) (v : pyval) (T s : Z) :
  w_config w !! "timeframe" = Some v ->
  timeframe_to_minutes v = Ok T ->
  let pc := w_protection_config w in
  py_int int_of_str (stop_entry pc) = Ok s ->
  let o := w_self (__init__ timeframe_to_minutes int_of_str w).2 in
  match py_int int_of_str (lookback_entry pc) with
  | Ok l =>
      _lookback_period o
      = Some (if dict_contains pc "lookback_period_candles" then T * l else l)
      /\ _lookback_period_candles o
         = if dict_contains pc "lookback_period_candles" then Some l else None
  | Raise _ =>
      _lookback_period_candles o = None
      /\ _lookback_period o = _lookback_period (w_self w)
  end.
Proof.
  intros Hv HT pc Hs. cbv zeta.
  rewrite (init_run _ _ w v T Hv HT). fold pc. cbv zeta. rewrite Hs.
  destruct (py_int int_of_str (lookback_entry pc)) as [l |].
  - pose proof (keeps_lookback_unlock_step
                  (with_self (bind_lookback_period T pc l)
                     (with_self (bind_stop_duration T pc s) (unbound w)))) as K.
    unfold unbound in K.
    destruct (set_unlock_at_as_stop_duration _) as [[[] | e] w3];
      cbn [snd] in K |- *; cbn in K |- *; injection K as K1 K2;
      rewrite K1, K2;
      rewrite (proj1 (bind_lookback_period_binds _ _ _ _)),
              (proj2 (bind_lookback_period_binds _ _ _ _)),
              (proj2 (proj2 (bind_stop_duration_other _ _ _ _)));
      split; reflexivity.
  - cbn. rewrite (proj2 (proj2 (bind_stop_duration_other _ _ _ _))),
                 (proj1 (proj2 (bind_stop_duration_other _ _ _ _))).
    split; reflexivity.
Qed.

(** X13.  The lookback period is resolved like the stop duration, and no
    unlock time ever overrides it.  With a timeframe worth [T] minutes and
    a stop entry that converts: with the key [lookback_period_candles] of
    value [N] the constructor leaves [_lookback_period_candles = N] and
    [_lookback_period = T * N]; without it, [_lookback_period_candles] is
    [None] and [_lookback_period] is the converted [lookback_period] entry,
    60 when that key is absent too.  This holds with or without
    [unlock_at], whether the unlock step returns or raises. *)
Theorem init_lookback_period (w : world) (v : pyval) (T s : Z) :
  w_config w !! "timeframe" = Some v ->
  timeframe_to_minutes v = Ok T ->
  py_int int_of_str (stop_entry (w_protection_config w)) = Ok s ->
  let pc := w_protection_config w in
  let o := w_self (__init__ timeframe_to_minutes int_of_str w).2 in
  match pc !! "lookback_period_candles" with
  | Some c =>
      forall N, py_int int_of_str c = Ok N ->
                _lookback_period_candles o = Some N
                /\ _lookback_period o = Some (T * N)
  | None =>
      _lookback_period_candles o = None
      /\ (forall D, py_int int_of_str (dict_get pc "lookback_period" (PyInt 60)) = Ok D ->
                    _lookback_period o = Some D)
      /\ (pc !! "lookback_period" = None -> _lookback_period o = Some 60)
  end.
Proof.
  intros Hv HT Hs pc o. subst o.
  pose proof (init_lookback_fields w v T s Hv HT Hs) as H.
  cbv zeta in H. fold pc in H. unfold lookback_entry in H.
  rewrite !dict_contains_lookup in H. unfold dict_get in H |- *.
  destruct (pc !! "lookback_period_candles") as [c |] eqn:Ec.
  - intros N HN. rewrite HN in H. exact (conj (proj2 H) (proj1 H)).
  - split; [| split].
    + match type of H with match ?x with _ => _ end => destruct x end; apply H.
    + intros D HD. rewrite HD in H. apply H.
    + intros Hn. rewrite Hn in H. cbn [py_int] in H. apply H.
Qed.

Lemma set_unlock_step_silent w :
  is_Some (w_protection_config w !! "unlock_at") ->
  w_log (set_unlock_at_as_stop_duration w).2 = w_log w.
Proof.
  intros Hkey. unfold set_unlock_at_as_stop_duration.
  rewrite bind_run. cbn [read]. unfold dict_contains.
  rewrite bool_decide_eq_true_2 by exact Hkey.
  rewrite bind_run.
  pose proof (keeps_calculate_unlock_at w_log ltac:(reflexivity) w) as K.
  destruct (calculate_unlock_at w) as [[d | e] w1]; exact K.
Qed.

(** X14.  With an [unlock_at] key in the protection configuration the
    constructor logs nothing, however it ends. *)
Theorem init_with_unlock_at_is_silent (w : world) :
  is_Some (w_protection_config w !! "unlock_at") ->
  w_log (__init__ timeframe_to_minutes int_of_str w).2 = w_log w.
Proof.
  intros Hkey.
  unfold __init__, LoggingMixin___init__.
  unfold mbind, M_bind, mret, M_ret, assign, read, lift.
  cbn [w_config w_protection_config with_self w_self w_log w_clock with_log].
  destruct (result_bind _ _ _ _); [| reflexivity].
  destruct (dict_contains _ "stop_duration_candles");
    (destruct (py_int int_of_str (dict_get _ _ _)); [| reflexivity]);
    (destruct (dict_contains _ "lookback_period_candles");
     (destruct (py_int int_of_str (dict_get _ _ _)); [| reflexivity]));
    match goal with
    | |- context [set_unlock_at_as_stop_duration ?w1] =>
        pose proof (set_unlock_step_silent w1 Hkey) as K;
        destruct (set_unlock_at_as_stop_duration w1) as [[[] | e] w3];
        exact K
    end.
Qed.

Lemma lookback_period_str_candles w n :
  _lookback_period_candles (w_self w) = Some n -> n <> 0 ->
  lookback_period_str plural w = (Ok (count_str plural n "candle" "candles"), w).
Proof.
  intros Hc Hn. unfold lookback_period_str.
  rewrite bind_run. cbn [read]. rewrite Hc. unfold truthy.
  rewrite (proj2 (Z.eqb_neq n 0) Hn). cbn [negb].
  rewrite bind_run. unfold getattr. rewrite Hc. reflexivity.
Qed.

Lemma lookback_period_str_minutes w d :
  truthy (_lookback_period_candles (w_self w)) = false ->
  _lookback_period (w_self w) = Some d ->
  lookback_period_str plural w = (Ok (count_str plural d "minute" "minutes"), w).
Proof.
  intros Hc Hd. unfold lookback_period_str.
  rewrite bind_run. cbn [read]. rewrite Hc.
  rewrite bind_run. unfold getattr. rewrite Hd. reflexivity.
Qed.

(** X15.  [lookback_period_str] shows the lookback period in candles when
    [_lookback_period_candles] is set and not zero, and in minutes over
    [_lookback_period] when it is [None] or zero; the store stays as it
    was.  A lookback of zero candles is therefore shown in minutes. *)
Theorem lookback_period_str_spec (w : world) (n : Z) :
  (_lookback_period_candles (w_self w) = Some n -> n <> 0 ->
   lookback_period_str plural w
   = (Ok (pretty n +:+ " " +:+ plural n "candle" "candles"), w))
  /\ (truthy (_lookback_period_candles (w_self w)) = false ->
      _lookback_period (w_self w) = Some n ->
      lookback_period_str plural w
      = (Ok (pretty n +:+ " " +:+ plural n "minute" "minutes"), w))
  /\ (_lookback_period_candles (w_self w) = Some 0 ->
      _lookback_period (w_self w) = Some n ->
      lookback_period_str plural w
      = (Ok (pretty n +:+ " " +:+ plural n "minute" "minutes"), w)).
Proof.
  split; [apply lookback_period_str_candles |].
  split; [apply lookback_period_str_minutes |].
  intros Hz. apply lookback_period_str_minutes. rewrite Hz. reflexivity.
Qed.

Lemma set_unlock_step_binds w :
  is_Some (_stop_duration (w_self w)) ->
  is_Some (_stop_duration (w_self (set_unlock_at_as_stop_duration w).2)).
Proof.
  intros Hb. unfold set_unlock_at_as_stop_duration.
  rewrite bind_run. cbn [read].
  destruct (dict_contains _ _); [| exact Hb].
  rewrite bind_run.
  pose proof (keeps_calculate_unlock_at (fun w => _stop_duration (w_self w))
                ltac:(reflexivity) w) as K.
  destruct (calculate_unlock_at w) as [[d | e] w1]; cbn in K |- *.
  - eauto.
  - rewrite K. exact Hb.
Qed.

(** What a constructor that returned went through. *)
Lemma init_Ok_inv (w : world) :
  (__init__ timeframe_to_minutes int_of_str w).1 = Ok tt ->
  exists v T s l w3,
    w_config w !! "timeframe" = Some v
    /\ timeframe_to_minutes v = Ok T
    /\ py_int int_of_str (stop_entry (w_protection_config w)) = Ok s
    /\ py_int int_of_str (lookback_entry (w_protection_config w)) = Ok l
    /\ set_unlock_at_as_stop_duration
         (with_self (bind_lookback_period T (w_protection_config w) l)
            (with_self (bind_stop_duration T (w_protection_config w) s) (unbound w)))
       = (Ok tt, w3)
    /\ (__init__ timeframe_to_minutes int_of_str w).2 = with_self set_logging_ready w3.
Proof.
  intros Hok.
  destruct (v ← dict_getitem (w_config w) "timeframe"; timeframe_to_minutes v)
    as [T | e] eqn:Htf.
  2: { exfalso. revert Hok. unfold __init__.
       unfold mbind at 1 2 3 4 5 6. unfold M_bind, assign, read, lift.
       cbn [w_config w_protection_config with_self w_self w_log w_clock].
       rewrite Htf. discriminate. }
  unfold dict_getitem in Htf.
  destruct (w_config w !! "timeframe") as [v |] eqn:Hv; [| discriminate].
  cbn in Htf. exists v, T.
  rewrite (init_run _ _ w v T Hv Htf) in Hok |- *. cbv zeta in Hok |- *.
  destruct (py_int int_of_str (stop_entry _)) as [s |]; [| discriminate].
  destruct (py_int int_of_str (lookback_entry _)) as [l |]; [| discriminate].
  exists s, l. fold (unbound w) in Hok |- *.
  destruct (set_unlock_at_as_stop_duration _) as [[[] | e] w3]; [| discriminate].
  exists w3. auto 10.
Qed.

(** X16.  On an instance whose constructor returned, the four properties
    never raise and never change the store: both window lengths are bound,
    so [stop_duration_str] and [lookback_period_str] have something to
    show, and [name] is the class name. *)
Theorem constructed_instance_is_readable (w : world) :
  (__init__ timeframe_to_minutes int_of_str w).1 = Ok tt ->
  let w' := (__init__ timeframe_to_minutes int_of_str w).2 in
  is_Some (_stop_duration (w_self w'))
  /\ is_Some (_lookback_period (w_self w'))
  /\ (exists s, stop_duration_str plural w' = (Ok s, w'))
  /\ (exists s, lookback_period_str plural w' = (Ok s, w'))
  /\ (exists o, unlock_at_str w' = (Ok o, w'))
  /\ name w' = (Ok (class_name (w_self w)), w').
Proof.
  intros Hok. cbv zeta.
  destruct (init_Ok_inv w Hok) as (v & T & s & l & w3 & Hv & HT & Hs & Hl & Hstep & ->).
  set (w2 := with_self (bind_lookback_period T (w_protection_config w) l)
               (with_self (bind_stop_duration T (w_protection_config w) s) (unbound w)))
    in *.
  assert (Hstop : is_Some (_stop_duration (w_self w3))).
  { pose proof (set_unlock_step_binds w2) as H. rewrite Hstep in H. apply H.
    subst w2. cbn. rewrite (proj1 (proj2 (bind_lookback_period_stop _ _ _ _))).
    rewrite bind_stop_duration_binds. eauto. }
  assert (Hlook : is_Some (_lookback_period (w_self w3))).
  { pose proof (keeps_lookback_unlock_step w2) as H. rewrite Hstep in H.
    injection H as _ H. cbn in H. rewrite H. subst w2. cbn.
    rewrite (proj1 (bind_lookback_period_binds _ _ _ _)). eauto. }
  assert (Hname : class_name (w_self w3) = class_name (w_self w)).
  { pose proof (keeps_set_unlock_at_as_stop_duration (fun w => class_name (w_self w))
                  ltac:(reflexivity) ltac:(reflexivity) ltac:(reflexivity) w2) as H.
    rewrite Hstep in H. cbn in H. rewrite H. subst w2. cbn.
    unfold bind_lookback_period, bind_stop_duration.
    destruct (dict_contains _ _), (dict_contains _ _); reflexivity. }
  set (w' := with_self set_logging_ready w3).
  assert (Hs' : _stop_duration (w_self w') = _stop_duration (w_self w3)) by reflexivity.
  assert (Hl' : _lookback_period (w_self w') = _lookback_period (w_self w3)) by reflexivity.
  split; [rewrite Hs'; exact Hstop |]. split; [rewrite Hl'; exact Hlook |].
  split; [| split; [| split]].
  - destruct (_stop_duration_candles (w_self w')) as [n |] eqn:Ec.
    + destruct (Z.eq_dec n 0) as [-> | Hn].
      * rewrite <- Hs' in Hstop. destruct Hstop as [d Hd].
        rewrite (stop_duration_str_minutes plural w' d); [eauto | | exact Hd].
        rewrite Ec. reflexivity.
      * rewrite (stop_duration_str_candles plural w' n Ec Hn). eauto.
    + rewrite <- Hs' in Hstop. destruct Hstop as [d Hd].
      rewrite (stop_duration_str_minutes plural w' d); [eauto | | exact Hd].
      rewrite Ec. reflexivity.
  - destruct (_lookback_period_candles (w_self w')) as [n |] eqn:Ec.
    + destruct (Z.eq_dec n 0) as [-> | Hn].
      * rewrite <- Hl' in Hlook. destruct Hlook as [d Hd].
        rewrite (lookback_period_str_minutes w' d); [eauto | | exact Hd].
        rewrite Ec. reflexivity.
      * rewrite (lookback_period_str_candles w' n Ec Hn). eauto.
    + rewrite <- Hl' in Hlook. destruct Hlook as [d Hd].
      rewrite (lookback_period_str_minutes w' d); [eauto | | exact Hd].
      rewrite Ec. reflexivity.
  - unfold unlock_at_str. rewrite bind_run. cbn [read].
    destruct (unlock_at (w_self w')); eauto.
  - unfold name, read. cbn. rewrite Hname. reflexivity.
Qed.

(** X17.  The displayed stop duration does not follow the unlock time: on
    an instance constructed with [stop_duration_candles] of value [N], not
    zero, [stop_duration_str] shows [N] candles, also when an [unlock_at]
    entry has replaced the stop duration itself. *)
Theorem stop_duration_str_ignores_unlock_at (w : world) (c : pyval) (N : Z) :
  (__init__ timeframe_to_minutes int_of_str w).1 = Ok tt ->
  w_protection_config w !! "stop_duration_candles" = Some c ->
  py_int int_of_str c = Ok N ->
  N <> 0 ->
  let w' := (__init__ timeframe_to_minutes int_of_str w).2 in
  stop_duration_str plural w' = (Ok (pretty N +:+ " " +:+ plural N "candle" "candles"), w').
Proof.
  intros Hok Hc HN Hnz. cbv zeta.
  destruct (init_Ok_inv w Hok) as (v & T & s & l & w3 & Hv & HT & Hs & _).
  pose proof (init_stop_candles timeframe_to_minutes int_of_str w v T Hv HT) as Hcand.
  cbv zeta in Hcand. unfold stop_entry in Hs, Hcand.
  rewrite dict_contains_lookup in Hs, Hcand. unfold dict_get in Hs, Hcand.
  rewrite Hc in Hs, Hcand. rewrite HN in Hcand.
  apply (stop_duration_str_candles plural _ N Hcand Hnz).
Qed.

End ConstructionMore.

(** ** Worked instances of the further properties *)

Section MoreInstances.

Import Sample.

Lemma calculate_lock_end_covers_every_close_witness :
  calculate_lock_end closed_trades 30 = Ok (zoned 2024 1 31 23 30 0)
  /\ is_Some (tzinfo (zoned 2024 1 31 23 30 0))
  /\ valid_datetime (zoned 2024 1 31 23 30 0) = true
  /\ forall d, d ∈ closed_dates closed_trades ->
               instant d + 30 * US_PER_MINUTE <= instant (zoned 2024 1 31 23 30 0).
Proof.
  assert (H : calculate_lock_end closed_trades 30 = Ok (zoned 2024 1 31 23 30 0))
    by (vm_compute; reflexivity).
  split; [exact H |].
  exact (calculate_lock_end_covers_every_close _ _ _ H).
Defined.

Lemma calculate_lock_end_order_irrelevant_witness :
  closed_trades ≡ₚ rearranged_trades
  /\ calculate_lock_end closed_trades 30 = Ok (zoned 2024 1 31 23 30 0)
  /\ calculate_lock_end rearranged_trades 30 = Ok (zoned 2024 1 31 23 30 0)
  /\ instant (zoned 2024 1 31 23 30 0) = instant (zoned 2024 1 31 23 30 0).
Proof.
  assert (HP : closed_trades ≡ₚ rearranged_trades) by apply perm_swap.
  assert (H1 : calculate_lock_end closed_trades 30 = Ok (zoned 2024 1 31 23 30 0))
    by (vm_compute; reflexivity).
  assert (H2 : calculate_lock_end rearranged_trades 30 = Ok (zoned 2024 1 31 23 30 0))
    by (vm_compute; reflexivity).
  split; [exact HP |]. split; [exact H1 |]. split; [exact H2 |].
  exact (calculate_lock_end_order_irrelevant _ _ _ _ _ HP H1 H2).
Defined.

Lemma calculate_lock_end_mixed_awareness_witness :
  uniform_awareness (closed_dates mixed_trades) = false
  /\ calculate_lock_end mixed_trades 30 = Raise TypeError.
Proof.
  assert (H : uniform_awareness (closed_dates mixed_trades) = false)
    by (vm_compute; reflexivity).
  split; [exact H |].
  exact (calculate_lock_end_mixed_awareness mixed_trades 30 H).
Defined.

Lemma calculate_lock_end_out_of_range_witness :
  (exists t, t ∈ last_minute_trades /\ is_Some (close_date t))
  /\ forallb valid_datetime (closed_dates last_minute_trades) = true
  /\ uniform_awareness (closed_dates last_minute_trades) = true
  /\ calculate_lock_end last_minute_trades 30 = Raise OverflowError.
Proof.
  assert (H1 : exists t, t ∈ last_minute_trades /\ is_Some (close_date t))
    by (eexists; split; [left | eexists; reflexivity]).
  assert (H2 : forallb valid_datetime (closed_dates last_minute_trades) = true)
    by (vm_compute; reflexivity).
  assert (H3 : uniform_awareness (closed_dates last_minute_trades) = true)
    by (vm_compute; reflexivity).
  split; [exact H1 |]. split; [exact H2 |]. split; [exact H3 |].
  apply (calculate_lock_end_out_of_range last_minute_trades 30 H1 H2 H3).
  intros d Hd _. cbn in Hd.
  apply list_elem_of_singleton in Hd as ->.
  intros [_ Hlt]. apply Z.ltb_lt in Hlt. vm_compute in Hlt. discriminate.
Defined.

Lemma calculate_timespan_swap_witness :
  calculate_timespan (zoned 2024 1 15 10 0 0) (zoned 2024 1 15 8 29 30) = Ok (-90)
  /\ calculate_timespan (zoned 2024 1 15 8 29 30) (zoned 2024 1 15 10 0 0) = Ok (- -90).
Proof.
  assert (H : calculate_timespan (zoned 2024 1 15 10 0 0) (zoned 2024 1 15 8 29 30)
              = Ok (-90)) by (vm_compute; reflexivity).
  split; [exact H |].
  exact (calculate_timespan_swap _ _ _ H).
Defined.

Lemma calculate_timespan_monotone_witness :
  calculate_timespan (zoned 2024 1 15 10 0 0) (zoned 2024 1 15 8 29 30) = Ok (-90)
  /\ calculate_timespan (zoned 2024 1 15 10 0 0) (zoned 2024 1 15 10 0 59) = Ok 0
  /\ instant (zoned 2024 1 15 8 29 30) <= instant (zoned 2024 1 15 10 0 59)
  /\ -90 <= 0.
Proof.
  assert (H1 : calculate_timespan (zoned 2024 1 15 10 0 0) (zoned 2024 1 15 8 29 30)
               = Ok (-90)) by (vm_compute; reflexivity).
  assert (H2 : calculate_timespan (zoned 2024 1 15 10 0 0) (zoned 2024 1 15 10 0 59)
               = Ok 0) by (vm_compute; reflexivity).
  assert (H3 : instant (zoned 2024 1 15 8 29 30) <= instant (zoned 2024 1 15 10 0 59))
    by (apply Z.leb_le; vm_compute; reflexivity).
  split; [exact H1 |]. split; [exact H2 |]. split; [exact H3 |].
  exact (calculate_timespan_monotone _ _ _ _ _ H1 H2 H3).
Defined.


Lemma calculate_timespan_to_lock_end_witness :
  calculate_lock_end zoned_trades 30 = Ok (zoned 2024 1 31 23 30 0)
  /\ zoned 2024 1 31 23 0 0 ∈ closed_dates zoned_trades
  /\ calculate_timespan (zoned 2024 1 31 23 0 0) (zoned 2024 1 31 23 30 0) = Ok 30.
Proof.
  assert (H1 : calculate_lock_end zoned_trades 30 = Ok (zoned 2024 1 31 23 30 0))
    by (vm_compute; reflexivity).
  assert (H2 : zoned 2024 1 31 23 0 0 ∈ closed_dates zoned_trades)
    by (right; left).
  split; [exact H1 |]. split; [exact H2 |].
  apply (proj2 (calculate_timespan_to_lock_end _ _ _ _ H1 H2)).
  - eexists. reflexivity.
  - intros d' Hd'. cbn in Hd'.
    repeat (apply elem_of_cons in Hd' as [-> | Hd']);
      [ .. | inversion Hd' ]; apply Z.leb_le; vm_compute; reflexivity.
Defined.

(** A zoneless close date cannot be measured against the lock end. *)
Example calculate_timespan_from_zoneless_close :
  calculate_lock_end closed_trades 30 = Ok (zoned 2024 1 31 23 30 0)
  /\ calculate_timespan (naive 2024 1 31 23 0 0) (zoned 2024 1 31 23 30 0)
     = Raise TypeError.
Proof. split; vm_compute; reflexivity. Qed.

Lemma calculate_unlock_at_within_a_day_witness :
  let w := store unlock_0900 (naive 2024 1 15 10 0 0) in
  let w' := with_self (set_unlock_at (Some (zoned 2024 1 16 9 0 0))) w in
  calculate_unlock_at w = (Ok 1380, w')
  /\ 1380 <= 1439
  /\ exists u, unlock_at (w_self w') = Some u
               /\ second u = 0 /\ microsecond u = 0
               /\ instant u - instant (utc_now w) < US_PER_DAY
               /\ 1380 * US_PER_MINUTE <= instant u - instant (utc_now w)
                  < (1380 + 1) * US_PER_MINUTE.
Proof.
  cbv zeta.
  assert (H : calculate_unlock_at (store unlock_0900 (naive 2024 1 15 10 0 0))
              = (Ok 1380, with_self (set_unlock_at (Some (zoned 2024 1 16 9 0 0)))
                            (store unlock_0900 (naive 2024 1 15 10 0 0))))
    by (vm_compute; reflexivity).
  split; [exact H |].
  exact (calculate_unlock_at_within_a_day _ _ _ H).
Defined.

Lemma unlock_at_str_round_trip_witness :
  let w := store unlock_0900 (naive 2024 1 15 10 0 0) in
  let w' := with_self (set_unlock_at (Some (zoned 2024 1 16 9 0 0))) w in
  0 <= 9 <= 23 /\ 0 <= 0 <= 59
  /\ w_protection_config w !! "unlock_at" = Some (PyStr (HH_MM 9 0))
  /\ calculate_unlock_at w = (Ok 1380, w')
  /\ unlock_at_str w' = (Ok (Some "09:00"), w').
Proof.
  cbv zeta.
  assert (H1 : 0 <= 9 <= 23) by lia.
  assert (H2 : 0 <= 0 <= 59) by lia.
  assert (H3 : w_protection_config (store unlock_0900 (naive 2024 1 15 10 0 0))
                 !! "unlock_at" = Some (PyStr (HH_MM 9 0)))
    by (vm_compute; reflexivity).
  assert (H4 : calculate_unlock_at (store unlock_0900 (naive 2024 1 15 10 0 0))
               = (Ok 1380, with_self (set_unlock_at (Some (zoned 2024 1 16 9 0 0)))
                             (store unlock_0900 (naive 2024 1 15 10 0 0))))
    by (vm_compute; reflexivity).
  split; [exact H1 |]. split; [exact H2 |]. split; [exact H3 |]. split; [exact H4 |].
  exact (unlock_at_str_round_trip _ _ 9 0 _ H1 H2 H3 H4).
Defined.


Lemma init_without_timeframe_witness :
  let w := store_without_timeframe minutes_45 (naive 2024 1 15 10 0 0) in
  (v ← dict_getitem (w_config w) "timeframe"; sample_timeframe_to_minutes v)
  = Raise KeyError
  /\ __init__ sample_timeframe_to_minutes sample_int_of_str w = (Raise KeyError, unbound w)
  /\ _stop_duration
       (w_self (__init__ sample_timeframe_to_minutes sample_int_of_str w).2) = None.
Proof.
  cbv zeta.
  set (w := store_without_timeframe minutes_45 (naive 2024 1 15 10 0 0)).
  assert (H : (v ← dict_getitem (w_config w) "timeframe"; sample_timeframe_to_minutes v)
              = Raise KeyError) by (vm_compute; reflexivity).
  split; [exact H |].
  destruct (init_without_timeframe sample_timeframe_to_minutes sample_int_of_str
              w KeyError H) as (Hrun & Hstop & _).
  split; [exact Hrun | exact Hstop].
Defined.

Lemma init_lookback_period_witness :
  let w := store lookback_3_candles_unlock_0900 (naive 2024 1 15 10 0 0) in
  let o := w_self (__init__ sample_timeframe_to_minutes sample_int_of_str w).2 in
  w_config w !! "timeframe" = Some (PyStr "5m")
  /\ sample_timeframe_to_minutes (PyStr "5m") = Ok 5
  /\ py_int sample_int_of_str (stop_entry (w_protection_config w)) = Ok 60
  /\ _lookback_period_candles o = Some 3
  /\ _lookback_period o = Some (5 * 3).
Proof.
  cbv zeta.
  set (w := store lookback_3_candles_unlock_0900 (naive 2024 1 15 10 0 0)).
  assert (H1 : w_config w !! "timeframe" = Some (PyStr "5m")) by (vm_compute; reflexivity).
  assert (H2 : sample_timeframe_to_minutes (PyStr "5m") = Ok 5) by reflexivity.
  assert (H3 : py_int sample_int_of_str (stop_entry (w_protection_config w)) = Ok 60)
    by (vm_compute; reflexivity).
  split; [exact H1 |]. split; [exact H2 |]. split; [exact H3 |].
  pose proof (init_lookback_period sample_timeframe_to_minutes sample_int_of_str
                w (PyStr "5m") 5 60 H1 H2 H3) as H.
  cbv zeta in H.
  assert (E : w_protection_config w !! "lookback_period_candles" = Some (PyInt 3))
    by (vm_compute; reflexivity).
  rewrite E in H. exact (H 3 eq_refl).
Defined.

Lemma init_with_unlock_at_is_silent_witness :
  let w := store unlock_0900 (naive 2024 1 15 10 0 0) in
  is_Some (w_protection_config w !! "unlock_at")
  /\ w_log (__init__ sample_timeframe_to_minutes sample_int_of_str w).2 = [].
Proof.
  cbv zeta.
  set (w := store unlock_0900 (naive 2024 1 15 10 0 0)).
  assert (H : is_Some (w_protection_config w !! "unlock_at"))
    by (exists (PyStr "09:00"); vm_compute; reflexivity).
  split; [exact H |].
  exact (init_with_unlock_at_is_silent sample_timeframe_to_minutes sample_int_of_str w H).
Defined.

(** A lookback of zero candles is shown as ["0 minutes"]. *)
Lemma lookback_period_str_spec_witness :
  let w := (construct lookback_zero_candles (naive 2024 1 15 10 0 0)).2 in
  _lookback_period_candles (w_self w) = Some 0
  /\ _lookback_period (w_self w) = Some 0
  /\ lookback_period_str sample_plural w = (Ok "0 minutes", w).
Proof.
  cbv zeta.
  set (w := (construct lookback_zero_candles (naive 2024 1 15 10 0 0)).2).
  assert (H1 : _lookback_period_candles (w_self w) = Some 0) by (vm_compute; reflexivity).
  assert (H2 : _lookback_period (w_self w) = Some 0) by (vm_compute; reflexivity).
  split; [exact H1 |]. split; [exact H2 |].
  exact (proj2 (proj2 (lookback_period_str_spec sample_plural w 0)) H1 H2).
Defined.

Lemma constructed_instance_is_readable_witness :
  let w := store two_candles (naive 2024 1 15 10 0 0) in
  let w' := (__init__ sample_timeframe_to_minutes sample_int_of_str w).2 in
  (__init__ sample_timeframe_to_minutes sample_int_of_str w).1 = Ok tt
  /\ is_Some (_stop_duration (w_self w'))
  /\ is_Some (_lookback_period (w_self w'))
  /\ (exists s, stop_duration_str sample_plural w' = (Ok s, w'))
  /\ (exists s, lookback_period_str sample_plural w' = (Ok s, w'))
  /\ (exists o, unlock_at_str w' = (Ok o, w'))
  /\ name w' = (Ok (class_name (w_self w)), w').
Proof.
  cbv zeta.
  set (w := store two_candles (naive 2024 1 15 10 0 0)).
  assert (H : (__init__ sample_timeframe_to_minutes sample_int_of_str w).1 = Ok tt)
    by (vm_compute; reflexivity).
  split; [exact H |].
  exact (constructed_instance_is_readable sample_timeframe_to_minutes sample_int_of_str
           sample_plural w H).
Defined.

(** Two candles and an unlock time: the stop duration is 1380 minutes, the
    display says ["2 candles"]. *)
Lemma stop_duration_str_ignores_unlock_at_witness :
  let w := store two_candles_unlock_0900 (naive 2024 1 15 10 0 0) in
  let w' := (__init__ sample_timeframe_to_minutes sample_int_of_str w).2 in
  (__init__ sample_timeframe_to_minutes sample_int_of_str w).1 = Ok tt
  /\ w_protection_config w !! "stop_duration_candles" = Some (PyInt 2)
  /\ _stop_duration (w_self w') = Some 1380
  /\ stop_duration_str sample_plural w' = (Ok "2 candles", w').
Proof.
  cbv zeta.
  set (w := store two_candles_unlock_0900 (naive 2024 1 15 10 0 0)).
  assert (H1 : (__init__ sample_timeframe_to_minutes sample_int_of_str w).1 = Ok tt)
    by (vm_compute; reflexivity).
  assert (H2 : w_protection_config w !! "stop_duration_candles" = Some (PyInt 2))
    by (vm_compute; reflexivity).
  assert (H3 : _stop_duration
                 (w_self (__init__ sample_timeframe_to_minutes sample_int_of_str w).2)
               = Some 1380) by (vm_compute; reflexivity).
  split; [exact H1 |]. split; [exact H2 |]. split; [exact H3 |].
  exact (stop_duration_str_ignores_unlock_at sample_timeframe_to_minutes
           sample_int_of_str sample_plural w (PyInt 2) 2 H1 H2 eq_refl ltac:(discriminate)).
Defined.

(** ["9:5"] is accepted and shown as ["09:05"]. *)
Lemma unlock_at_str_is_canonical_witness :
  let w := store unlock_short (naive 2024 1 15 8 0 0) in
  let w' := with_self (set_unlock_at (Some (zoned 2024 1 15 9 5 0))) w in
  calculate_unlock_at w = (Ok 65, w')
  /\ unlock_at_str w' = (Ok (Some "09:05"), w').
Proof.
  cbv zeta.
  set (w := store unlock_short (naive 2024 1 15 8 0 0)).
  assert (H : calculate_unlock_at w
              = (Ok 65, with_self (set_unlock_at (Some (zoned 2024 1 15 9 5 0))) w))
    by (vm_compute; reflexivity).
  split; [exact H |].
  destruct (unlock_at_str_is_canonical _ _ _ H) as (p & u & Hp & _ & _ & _ & _ & _ & Hstr).
  assert (E : strptime_HM (unlock_at_entry w) = Ok (parsed 9 5)) by (vm_compute; reflexivity).
  rewrite E in Hp. injection Hp as <-. exact Hstr.
Defined.

End MoreInstances.
